(** * Educational platform backend: model of the request handlers

    A shallow embedding of [educational-platform-backend.py]: the three
    document collections ([users], [courses], [progress]), the eight request
    handlers, and the properties of the data model they maintain.

    Every handler is an [async def] that awaits one database call after the
    other; here a handler is a function from the store to a result and the
    store it leaves behind.  A handler that raises keeps the writes it made
    before raising, as there is no transaction around it. *)

From Stdlib Require Import List String Ascii ZArith NArith Bool Lia.
Import ListNotations.
Local Open Scope string_scope.
Local Open Scope list_scope.

(** ** Object ids *)

(** A [bson.ObjectId] is determined by its binary.  A binary of 12 bytes,
    which is what [insert_one] generates and what 24 hexadecimal digits give,
    is kept as the number it denotes, below [2^96].  [ObjectId(v)] takes the
    binary from [bytes.fromhex], which skips ASCII whitespace between the
    digit pairs, so 24 characters that include whitespace give a binary of
    fewer bytes; such a binary is kept as a number from [2^96] on that
    determines its bytes (see [of_binary_inj]). *)
Definition ObjectId := N.

Definition hex_digit (c : ascii) : option N :=
  let n := N_of_ascii c in
  if ((48 <=? n) && (n <=? 57))%N then Some (n - 48)%N
  else if ((97 <=? n) && (n <=? 102))%N then Some (n - 87)%N
  else if ((65 <=? n) && (n <=? 70))%N then Some (n - 55)%N
  else None.

(** ASCII whitespace: tab, line feed, vertical tab, form feed, carriage
    return and space. *)
Definition is_space (c : ascii) : bool :=
  let n := N_of_ascii c in
  (((9 <=? n) && (n <=? 13)) || (n =? 32))%N.

(** [bytes.fromhex]: whitespace is skipped before a byte, a byte is two
    hexadecimal digits with nothing between them, and anything else is an
    error. *)
Fixpoint fromhex (l : list ascii) : option (list N) :=
  match l with
  | [] => Some []
  | c :: l' =>
      if is_space c then fromhex l'
      else
        match hex_digit c, l' with
        | Some top, d :: l'' =>
            match hex_digit d with
            | Some bot => option_map (cons (16 * top + bot)%N) (fromhex l'')
            | None => None
            end
        | _, _ => None
        end
  end.

Definition is_byte (x : N) : Prop := (x < 256)%N.

(** The number that the bytes [b] denote, first byte first, after the
    digits of [acc]. *)
Definition binary_value (acc : N) (b : list N) : N :=
  fold_left (fun a x => (256 * a + x)%N) b acc.

(** [2^96], the number of 12-byte binaries. *)
Definition oid_limit : N := 79228162514264337593543950336%N.

(** A 12-byte binary is the number it denotes; a shorter one is put above
    [oid_limit], with a leading digit 1 that tells binaries of different
    lengths apart. *)
Definition of_binary (b : list N) : ObjectId :=
  if (List.length b =? 12)%nat then binary_value 0 b
  else (oid_limit + binary_value 1 b)%N.

Module ObjectId.

(** [ObjectId.is_valid] on a [str]: 24 characters that [bytes.fromhex]
    accepts. *)
Definition is_valid (v : string) : bool :=
  (String.length v =? 24)%nat &&
  match fromhex (list_ascii_of_string v) with Some _ => true | None => false end.

(** [ObjectId(v)] on a valid [str]. *)
Definition of_str (v : string) : ObjectId :=
  match fromhex (list_ascii_of_string v) with
  | Some b => of_binary b
  | None => 0%N
  end.

End ObjectId.

(** ** Documents and models *)

(** A document of [db.users].  [is_instructor] is written from
    [UserCreateRequest.is_instructor], an [Optional[bool]]. *)
Record UserDoc := mkUserDoc {
  u_id : ObjectId;
  username : string;
  is_instructor : option bool
}.

(** The pydantic model [User]: [is_instructor] is a [bool]. *)
Record User := mkUser {
  User_id : ObjectId;
  User_username : string;
  User_is_instructor : bool
}.

Record QuizQuestion := mkQuizQuestion {
  question : string;
  options : list string;
  correct_option_index : Z
}.

(** The model [Course]; a document of [db.courses] has the same fields. *)
Record Course := mkCourse {
  c_id : ObjectId;
  title : string;
  description : option string;
  instructor_id : ObjectId;
  quizzes : list QuizQuestion
}.

(** The model [Progress]; a document of [db.progress] has the same fields. *)
Record Progress := mkProgress {
  p_id : ObjectId;
  student_id : ObjectId;
  course_id : ObjectId;
  completed_quizzes : list Z;
  assignments_completed : bool
}.

Record UserCreateRequest := mkUserCreateRequest {
  ucr_username : string;
  ucr_is_instructor : option bool
}.

Record CourseCreateRequest := mkCourseCreateRequest {
  ccr_title : string;
  ccr_description : option string;
  ccr_instructor_username : string
}.

Record EnrollRequest := mkEnrollRequest {
  student_username : string
}.

Record CompleteQuizRequest := mkCompleteQuizRequest {
  quiz_index : Z
}.

(** ** The store *)

(** The three collections in insertion order, and the source of the ids that
    [insert_one] gives to the documents it stores: [next_oid] is an id that
    was never handed out. *)
Record Store := mkStore {
  users : list UserDoc;
  courses : list Course;
  progress : list Progress;
  next_oid : ObjectId
}.

Definition empty_store : Store := mkStore [] [] [] 0%N.

(** ** Results *)

Inductive Exn :=
| HTTPException (status_code : Z) (detail : string)
| ValueError (msg : string)
| ValidationError (msg : string)
| TypeError (msg : string)
| OverflowError (msg : string).

Inductive Result (A : Type) :=
| Return (a : A)
| Raise (e : Exn).
Arguments Return {A} a.
Arguments Raise {A} e.

(** A failure is an HTTP error response when the handler raised
    [HTTPException]. *)
Definition is_http_error (e : Exn) : bool :=
  match e with HTTPException _ _ => true | _ => false end.



(** ** The handler monad: state, and exceptions that keep the state *)

Definition M (A : Type) := Store -> Result A * Store.

Definition ret {A} (a : A) : M A := fun s => (Return a, s).

Definition raise {A} (e : Exn) : M A := fun s => (Raise e, s).

Definition bind {A B} (m : M A) (k : A -> M B) : M B :=
  fun s =>
    match m s with
    | (Return a, s') => k a s'
    | (Raise e, s') => (Raise e, s')
    end.

Declare Scope handler_scope.
Delimit Scope handler_scope with handler.
Notation "x <- m ;; k" := (bind m (fun x => k))
  (at level 61, m at next level, right associativity) : handler_scope.
Notation "m ;;; k" := (bind m (fun _ => k))
  (at level 61, right associativity) : handler_scope.
Local Open Scope handler_scope.

(** ** Collection operations *)

(** [update_one]: the first document that matches is changed. *)
Fixpoint update_first {A} (q : A -> bool) (f : A -> A) (l : list A) : list A :=
  match l with
  | [] => []
  | x :: l' => if q x then f x :: l' else x :: update_first q f l'
  end.

Definition users_find_one (q : UserDoc -> bool) : M (option UserDoc) :=
  fun s => (Return (find q (users s)), s).

Definition courses_find_one (q : Course -> bool) : M (option Course) :=
  fun s => (Return (find q (courses s)), s).

Definition progress_find_one (q : Progress -> bool) : M (option Progress) :=
  fun s => (Return (find q (progress s)), s).

Definition courses_find : M (list Course) :=
  fun s => (Return (courses s), s).

(** [insert_one] stores the document under a new id and returns the id. *)
Definition users_insert_one (name : string) (flag : option bool) : M ObjectId :=
  fun s =>
    let oid := next_oid s in
    (Return oid,
     mkStore (users s ++ [mkUserDoc oid name flag]) (courses s) (progress s)
             (N.succ oid)).

Definition courses_insert_one (t : string) (d : option string)
    (owner : ObjectId) (qs : list QuizQuestion) : M ObjectId :=
  fun s =>
    let oid := next_oid s in
    (Return oid,
     mkStore (users s) (courses s ++ [mkCourse oid t d owner qs]) (progress s)
             (N.succ oid)).

Definition progress_insert_one (sid cid : ObjectId) (done : list Z)
    (flag : bool) : M ObjectId :=
  fun s =>
    let oid := next_oid s in
    (Return oid,
     mkStore (users s) (courses s) (progress s ++ [mkProgress oid sid cid done flag])
             (N.succ oid)).

(** An integer that the store can hold: 8 bytes, signed. *)
Definition fits_int64 (k : Z) : bool :=
  ((- 2 ^ 63 <=? k) && (k <? 2 ^ 63))%Z.

(** [update_one].  The update document is encoded before anything is sent,
    and the encoder raises [OverflowError] on an integer that does not fit 8
    bytes; [ints] are the integers of the update document. *)
Definition courses_update_one (q : Course -> bool) (ints : list Z)
    (f : Course -> Course) : M unit :=
  fun s =>
    if forallb fits_int64 ints then
      (Return tt,
       mkStore (users s) (update_first q f (courses s)) (progress s) (next_oid s))
    else (Raise (OverflowError "MongoDB can only handle up to 8-byte ints"), s).

Definition progress_update_one (q : Progress -> bool) (ints : list Z)
    (f : Progress -> Progress) : M unit :=
  fun s =>
    if forallb fits_int64 ints then
      (Return tt,
       mkStore (users s) (courses s) (update_first q f (progress s)) (next_oid s))
    else (Raise (OverflowError "MongoDB can only handle up to 8-byte ints"), s).

(** The update operators the handlers use. *)
Definition push_quizzes (quiz : QuizQuestion) (c : Course) : Course :=
  mkCourse (c_id c) (title c) (description c) (instructor_id c)
           (quizzes c ++ [quiz]).

Definition set_completed_quizzes (done : list Z) (p : Progress) : Progress :=
  mkProgress (p_id p) (student_id p) (course_id p) done (assignments_completed p).

Definition set_assignments_completed (b : bool) (p : Progress) : Progress :=
  mkProgress (p_id p) (student_id p) (course_id p) (completed_quizzes p) b.

(** The queries the handlers use. *)
Definition by_username (name : string) (u : UserDoc) : bool :=
  String.eqb (username u) name.

Definition by_username_role (name : string) (role : bool) (u : UserDoc) : bool :=
  String.eqb (username u) name &&
  match is_instructor u with Some b => Bool.eqb b role | None => false end.

Definition course_by_id (oid : ObjectId) (c : Course) : bool :=
  N.eqb (c_id c) oid.

Definition progress_by_pair (sid cid : ObjectId) (p : Progress) : bool :=
  N.eqb (student_id p) sid && N.eqb (course_id p) cid.

Definition progress_by_id (oid : ObjectId) (p : Progress) : bool :=
  N.eqb (p_id p) oid.

(** [k in l] on a list of integers. *)
Definition mem_Z (k : Z) (l : list Z) : bool := existsb (Z.eqb k) l.

(** ** Model construction *)

Module PyObjectId.

Definition validate (v : string) : M ObjectId :=
  if negb (ObjectId.is_valid v) then raise (ValueError "Invalid ObjectId")
  else ret (ObjectId.of_str v).

End PyObjectId.

(** The model [User] built from [user_doc]: a [None] is not accepted for
    the [bool] field. *)
Definition User_of_doc (oid : ObjectId) (name : string) (flag : option bool)
  : M User :=
  match flag with
  | Some b => ret (mkUser oid name b)
  | None => raise (ValidationError "is_instructor: none is not an allowed value")
  end.

(** The model [Course] built from [updated], which is what [find_one] gave
    back. *)
Definition Course_of_found (d : option Course) : M Course :=
  match d with
  | Some c => ret c
  | None => raise (TypeError "argument must be a mapping, not NoneType")
  end.

(** ** The handlers *)

Definition create_user (user : UserCreateRequest) : M User :=
  existing <- users_find_one (by_username (ucr_username user)) ;;
  match existing with
  | Some _ => raise (HTTPException 400 "Username already exists")
  | None =>
      inserted_id <- users_insert_one (ucr_username user) (ucr_is_instructor user) ;;
      User_of_doc inserted_id (ucr_username user) (ucr_is_instructor user)
  end.

Definition create_course (course : CourseCreateRequest) : M Course :=
  instructor <- users_find_one
                  (by_username_role (ccr_instructor_username course) true) ;;
  match instructor with
  | None => raise (HTTPException 403 "Only instructors can create courses")
  | Some instructor =>
      inserted_id <- courses_insert_one (ccr_title course) (ccr_description course)
                                        (u_id instructor) [] ;;
      ret (mkCourse inserted_id (ccr_title course) (ccr_description course)
                    (u_id instructor) [])
  end.

Definition add_quiz (course_id : string) (quiz : QuizQuestion) : M Course :=
  course_oid <- PyObjectId.validate course_id ;;
  course <- courses_find_one (course_by_id course_oid) ;;
  match course with
  | None => raise (HTTPException 404 "Course not found")
  | Some _ =>
      courses_update_one (course_by_id course_oid) [correct_option_index quiz]
                         (push_quizzes quiz) ;;;
      updated <- courses_find_one (course_by_id course_oid) ;;
      Course_of_found updated
  end.

Definition list_courses : M (list Course) :=
  courses_find.

Definition enroll_student (course_id : string) (enroll_req : EnrollRequest)
  : M Progress :=
  student <- users_find_one
               (by_username_role (student_username enroll_req) false) ;;
  match student with
  | None => raise (HTTPException 404 "Student not found")
  | Some student =>
      course_oid <- PyObjectId.validate course_id ;;
      progress <- progress_find_one (progress_by_pair (u_id student) course_oid) ;;
      match progress with
      | Some progress => ret progress
      | None =>
          inserted_id <- progress_insert_one (u_id student) course_oid [] false ;;
          ret (mkProgress inserted_id (u_id student) course_oid [] false)
      end
  end.

Definition get_progress (course_id : string) (student_username : string)
  : M Progress :=
  student <- users_find_one (by_username_role student_username false) ;;
  match student with
  | None => raise (HTTPException 404 "Student not found")
  | Some student =>
      course_oid <- PyObjectId.validate course_id ;;
      prog <- progress_find_one (progress_by_pair (u_id student) course_oid) ;;
      match prog with
      | None => raise (HTTPException 404 "Progress not found")
      | Some prog => ret prog
      end
  end.

Definition complete_quiz (course_id : string) (student_username : string)
    (complete_quiz_req : CompleteQuizRequest) : M string :=
  student <- users_find_one (by_username_role student_username false) ;;
  match student with
  | None => raise (HTTPException 404 "Student not found")
  | Some student =>
      course_oid <- PyObjectId.validate course_id ;;
      prog <- progress_find_one (progress_by_pair (u_id student) course_oid) ;;
      match prog with
      | None => raise (HTTPException 404 "Progress not found")
      | Some prog =>
          let quizzes_done := completed_quizzes prog in
          (if negb (mem_Z (quiz_index complete_quiz_req) quizzes_done)
           then
             let quizzes_done := quizzes_done ++ [quiz_index complete_quiz_req] in
             progress_update_one (progress_by_id (p_id prog)) quizzes_done
                                 (set_completed_quizzes quizzes_done)
           else ret tt) ;;;
          ret "Quiz marked complete"
      end
  end.

Definition complete_assignment (course_id : string) (student_username : string)
  : M string :=
  student <- users_find_one (by_username_role student_username false) ;;
  match student with
  | None => raise (HTTPException 404 "Student not found")
  | Some student =>
      course_oid <- PyObjectId.validate course_id ;;
      prog <- progress_find_one (progress_by_pair (u_id student) course_oid) ;;
      match prog with
      | None => raise (HTTPException 404 "Progress not found")
      | Some prog =>
          progress_update_one (progress_by_id (p_id prog)) []
                              (set_assignments_completed true) ;;;
          ret "Assignment marked complete"
      end
  end.

(** ** Shapes of the store after a write *)

Definition add_user (s : Store) (name : string) (flag : option bool) : Store :=
  mkStore (users s ++ [mkUserDoc (next_oid s) name flag]) (courses s)
          (progress s) (N.succ (next_oid s)).

Definition add_course (s : Store) (c : Course) : Store :=
  mkStore (users s) (courses s ++ [c]) (progress s) (N.succ (next_oid s)).

Definition add_progress (s : Store) (p : Progress) : Store :=
  mkStore (users s) (courses s) (progress s ++ [p]) (N.succ (next_oid s)).

Definition with_courses (s : Store) (l : list Course) : Store :=
  mkStore (users s) l (progress s) (next_oid s).

Definition with_progress (s : Store) (l : list Progress) : Store :=
  mkStore (users s) (courses s) l (next_oid s).

(** What [complete_quiz] leaves in [completed_quizzes]: the index is appended
    unless the list has it already. *)
Definition add_index (k : Z) (l : list Z) : list Z :=
  if mem_Z k l then l else l ++ [k].

(** ** The service as a transition system *)

Inductive Request :=
| ReqCreateUser (user : UserCreateRequest)
| ReqCreateCourse (course : CourseCreateRequest)
| ReqAddQuiz (course_id : string) (quiz : QuizQuestion)
| ReqListCourses
| ReqEnrollStudent (course_id : string) (enroll_req : EnrollRequest)
| ReqGetProgress (course_id : string) (student_username : string)
| ReqCompleteQuiz (course_id : string) (student_username : string)
                  (complete_quiz_req : CompleteQuizRequest)
| ReqCompleteAssignment (course_id : string) (student_username : string).

(** The store a request leaves behind, whether its handler returned or
    raised. *)
Definition handle (r : Request) (s : Store) : Store :=
  match r with
  | ReqCreateUser user => snd (create_user user s)
  | ReqCreateCourse course => snd (create_course course s)
  | ReqAddQuiz cid quiz => snd (add_quiz cid quiz s)
  | ReqListCourses => snd (list_courses s)
  | ReqEnrollStudent cid req => snd (enroll_student cid req s)
  | ReqGetProgress cid name => snd (get_progress cid name s)
  | ReqCompleteQuiz cid name req => snd (complete_quiz cid name req s)
  | ReqCompleteAssignment cid name => snd (complete_assignment cid name s)
  end.

Definition run (reqs : list Request) (s : Store) : Store :=
  fold_left (fun st r => handle r st) reqs s.

(** ** The data-model invariants *)

Definition progress_key (p : Progress) : ObjectId * ObjectId :=
  (student_id p, course_id p).

Definition usernames_unique (s : Store) : Prop :=
  NoDup (map username (users s)).

Definition one_progress_per_pair (s : Store) : Prop :=
  NoDup (map progress_key (progress s)).

Definition has_account (s : Store) (oid : ObjectId) (role : bool) : Prop :=
  exists u, In u (users s) /\ u_id u = oid /\ is_instructor u = Some role.

Definition owners_are_instructors (s : Store) : Prop :=
  Forall (fun c => has_account s (instructor_id c) true) (courses s).

Definition students_are_not_instructors (s : Store) : Prop :=
  Forall (fun p => has_account s (student_id p) false) (progress s).

(** What the store's [_id] index and the id generator give: within a
    collection no two documents share an [_id], and [next_oid] is above every
    id in use. *)
Definition ids_unique (s : Store) : Prop :=
  NoDup (map u_id (users s)) /\
  NoDup (map c_id (courses s)) /\
  NoDup (map p_id (progress s)).

Definition ids_allocated (s : Store) : Prop :=
  Forall (fun u => (u_id u < next_oid s)%N) (users s) /\
  Forall (fun c => (c_id c < next_oid s)%N) (courses s) /\
  Forall (fun p => (p_id p < next_oid s)%N) (progress s).

Record data_model_invariants (s : Store) : Prop := {
  inv_usernames : usernames_unique s;
  inv_progress : one_progress_per_pair s;
  inv_owners : owners_are_instructors s;
  inv_students : students_are_not_instructors s;
  inv_ids : ids_unique s;
  inv_alloc : ids_allocated s
}.

(** ** Outcomes of requests *)

(** What a handler raised, if it raised. *)
Definition failure_of {A} (r : Result A * Store) : option Exn :=
  match fst r with
  | Return _ => None
  | Raise e => Some e
  end.

Definition outcome (r : Request) (s : Store) : option Exn :=
  match r with
  | ReqCreateUser user => failure_of (create_user user s)
  | ReqCreateCourse course => failure_of (create_course course s)
  | ReqAddQuiz cid quiz => failure_of (add_quiz cid quiz s)
  | ReqListCourses => failure_of (list_courses s)
  | ReqEnrollStudent cid req => failure_of (enroll_student cid req s)
  | ReqGetProgress cid name => failure_of (get_progress cid name s)
  | ReqCompleteQuiz cid name req => failure_of (complete_quiz cid name req s)
  | ReqCompleteAssignment cid name => failure_of (complete_assignment cid name s)
  end.


(** ** How collections change over time *)

(** [grows R l l']: [l'] is [l] with every document replaced by one that is
    [R]-related to it, followed by new documents. *)
Definition grows {A} (R : A -> A -> Prop) (l l' : list A) : Prop :=
  exists old new, l' = old ++ new /\ Forall2 R l old.

(** A course keeps its identity and its quizzes, and may gain quizzes at the
    end. *)
Definition course_extends (c c' : Course) : Prop :=
  c_id c' = c_id c /\ title c' = title c /\
  description c' = description c /\
  instructor_id c' = instructor_id c /\
  exists qs, quizzes c' = quizzes c ++ qs.

(** A progress record keeps its identity and what was completed. *)
Definition progress_extends (p p' : Progress) : Prop :=
  p_id p' = p_id p /\ student_id p' = student_id p /\
  course_id p' = course_id p /\
  incl (completed_quizzes p) (completed_quizzes p') /\
  (assignments_completed p = true -> assignments_completed p' = true).

Definition completed_distinct (s : Store) : Prop :=
  Forall (fun p => NoDup (completed_quizzes p)) (progress s).

(** The completed indices that the store holds fit 8 bytes. *)
Definition completed_fit (s : Store) : Prop :=
  Forall (fun p => forallb fits_int64 (completed_quizzes p) = true) (progress s).

(** ** A sample run *)

Definition sample_course_id : string := "000000000000000000000002".

Definition unknown_course_id : string := "507f1f77bcf86cd799439011".

Definition alice : UserDoc := mkUserDoc 0%N "alice" (Some false).

Definition sample_requests : list Request :=
  [ ReqCreateUser (mkUserCreateRequest "alice" (Some false));
    ReqCreateUser (mkUserCreateRequest "bob" (Some true));
    ReqCreateCourse (mkCourseCreateRequest "Logic" None "bob");
    ReqEnrollStudent sample_course_id (mkEnrollRequest "alice") ].

Definition sample_store : Store := run sample_requests empty_store.

Definition sample_progress : Progress :=
  mkProgress 3%N 0%N (ObjectId.of_str sample_course_id) [] false.

Definition sample_quiz : QuizQuestion :=
  mkQuizQuestion "2 + 2 = ?" ["3"; "4"] 1.

(** * Proofs *)

(** ** Object ids: a number names one binary *)

Lemma binary_value_cons a x b :
  binary_value a (x :: b) = binary_value (256 * a + x) b.
Proof. reflexivity. Qed.

Lemma binary_value_bounds b : forall a,
  Forall is_byte b ->
  (a * 256 ^ N.of_nat (List.length b) <= binary_value a b
   < (a + 1) * 256 ^ N.of_nat (List.length b))%N.
Proof.
  induction b as [|x b IH]; intros a Hb.
  - simpl. lia.
  - inversion Hb as [|? ? Hx Hb']; subst. unfold is_byte in Hx.
    rewrite binary_value_cons.
    specialize (IH (256 * a + x)%N Hb').
    change (List.length (x :: b)) with (S (List.length b)).
    rewrite Nat2N.inj_succ, N.pow_succ_r'.
    nia.
Qed.

Lemma binary_value_inj b1 : forall b2 a1 a2,
  List.length b1 = List.length b2 -> Forall is_byte b1 -> Forall is_byte b2 ->
  binary_value a1 b1 = binary_value a2 b2 -> a1 = a2 /\ b1 = b2.
Proof.
  induction b1 as [|x b1 IH]; intros [|y b2] a1 a2 Hlen H1 H2 Heq;
    try discriminate.
  - auto.
  - inversion H1 as [|? ? Hx H1']; inversion H2 as [|? ? Hy H2']; subst.
    unfold is_byte in Hx, Hy.
    rewrite !binary_value_cons in Heq.
    injection Hlen as Hlen.
    destruct (IH b2 _ _ Hlen H1' H2' Heq) as [Ha ->].
    assert (a1 = a2) by lia. subst. assert (x = y) by lia. subst. auto.
Qed.

Lemma oid_limit_pow : oid_limit = (256 ^ 12)%N.
Proof. reflexivity. Qed.

(** Two binaries that [of_binary] maps to one number are the same binary. *)
Lemma of_binary_inj b1 b2 :
  Forall is_byte b1 -> Forall is_byte b2 ->
  of_binary b1 = of_binary b2 -> b1 = b2.
Proof.
  intros H1 H2. unfold of_binary.
  pose proof (binary_value_bounds b1 0 H1) as B10.
  pose proof (binary_value_bounds b2 0 H2) as B20.
  pose proof (binary_value_bounds b1 1 H1) as B11.
  pose proof (binary_value_bounds b2 1 H2) as B21.
  destruct (Nat.eqb_spec (List.length b1) 12) as [L1|L1];
    destruct (Nat.eqb_spec (List.length b2) 12) as [L2|L2]; intros Heq.
  - apply (binary_value_inj b1 b2 0%N 0%N); congruence.
  - rewrite L1 in B10. change (N.of_nat 12) with 12%N in B10.
    rewrite <- oid_limit_pow in B10. lia.
  - rewrite L2 in B20. change (N.of_nat 12) with 12%N in B20.
    rewrite <- oid_limit_pow in B20. lia.
  - assert (Hv : binary_value 1 b1 = binary_value 1 b2) by lia.
    destruct (Nat.lt_trichotomy (List.length b1) (List.length b2)) as [Hlt|[Hlen|Hlt]].
    + exfalso.
      assert (Hpow : (256 ^ N.of_nat (S (List.length b1))
                      <= 256 ^ N.of_nat (List.length b2))%N)
        by (apply N.pow_le_mono_r; lia).
      rewrite Nat2N.inj_succ, N.pow_succ_r' in Hpow. lia.
    + apply (binary_value_inj b1 b2 1%N 1%N); assumption.
    + exfalso.
      assert (Hpow : (256 ^ N.of_nat (S (List.length b2))
                      <= 256 ^ N.of_nat (List.length b1))%N)
        by (apply N.pow_le_mono_r; lia).
      rewrite Nat2N.inj_succ, N.pow_succ_r' in Hpow. lia.
Qed.

Lemma hex_digit_bound c d : hex_digit c = Some d -> (d < 16)%N.
Proof.
  unfold hex_digit.
  repeat match goal with
    | |- context [if ?b then _ else _] => destruct b eqn:?
    end; intros H; try discriminate; injection H as <-;
    repeat match goal with
      | H : (_ && _)%bool = true |- _ => apply andb_true_iff in H as [? ?]
      | H : (_ <=? _)%N = true |- _ => apply N.leb_le in H
      end; lia.
Qed.

(** What [bytes.fromhex] returns is a list of bytes. *)
Lemma fromhex_bytes : forall n l b,
  (List.length l <= n)%nat -> fromhex l = Some b -> Forall is_byte b.
Proof.
  induction n as [|n IH]; intros l b Hn.
  - destruct l; [|simpl in Hn; lia]. simpl. intros H. injection H as <-. constructor.
  - destruct l as [|c l]; simpl.
    + intros H. injection H as <-. constructor.
    + simpl in Hn. destruct (is_space c).
      * apply IH. lia.
      * destruct (hex_digit c) as [top|] eqn:Htop; [|discriminate].
        destruct l as [|d l]; [discriminate|].
        destruct (hex_digit d) as [bot|] eqn:Hbot; [|discriminate].
        destruct (fromhex l) as [b'|] eqn:Hrest; [|discriminate].
        cbn [option_map]. intros H. injection H as <-.
        apply hex_digit_bound in Htop, Hbot.
        constructor; [unfold is_byte; destruct top; lia|].
        apply (IH l); [simpl in Hn; lia | assumption].
Qed.

(** Two valid strings give the same id exactly when they spell the same
    bytes. *)
Lemma of_str_inj v1 v2 b1 b2 :
  fromhex (list_ascii_of_string v1) = Some b1 ->
  fromhex (list_ascii_of_string v2) = Some b2 ->
  ObjectId.of_str v1 = ObjectId.of_str v2 -> b1 = b2.
Proof.
  intros H1 H2. unfold ObjectId.of_str. rewrite H1, H2.
  apply of_binary_inj; eapply fromhex_bytes; eauto.
Qed.

(** ** Lists: the first match and its update *)

Section FirstMatch.

Context {A : Type}.
Implicit Types (q : A -> bool) (f : A -> A) (l : list A).

Lemma find_split q l x :
  find q l = Some x ->
  exists l1 l2, l = l1 ++ x :: l2 /\ q x = true /\
                Forall (fun y => q y = false) l1.
Proof.
  induction l as [|a l IH]; simpl; [discriminate|].
  destruct (q a) eqn:Hqa; intros H.
  - injection H as ->. exists [], l. auto.
  - destruct (IH H) as (l1 & l2 & -> & Hx & Hl1).
    exists (a :: l1), l2. auto.
Qed.

Lemma find_first q l1 x l2 :
  Forall (fun y => q y = false) l1 -> q x = true ->
  find q (l1 ++ x :: l2) = Some x.
Proof.
  induction 1 as [|a l1 Ha _ IH]; simpl; intros Hx.
  - now rewrite Hx.
  - rewrite Ha. auto.
Qed.

Lemma find_none_forall q l :
  find q l = None <-> Forall (fun y => q y = false) l.
Proof.
  induction l as [|a l IH]; simpl.
  - split; auto.
  - destruct (q a) eqn:Hqa; split; intros H.
    + discriminate.
    + inversion H; congruence.
    + constructor; [assumption | now apply IH].
    + inversion H; now apply IH.
Qed.

Lemma find_app_some q l l' x :
  find q l = Some x -> find q (l ++ l') = Some x.
Proof.
  induction l as [|a l IH]; simpl; [discriminate|].
  destruct (q a); auto.
Qed.

Lemma find_app_none q l l' :
  find q l = None -> find q (l ++ l') = find q l'.
Proof.
  induction l as [|a l IH]; simpl; [reflexivity|].
  destruct (q a); [discriminate | auto].
Qed.

Lemma update_first_at q f l1 x l2 :
  Forall (fun y => q y = false) l1 -> q x = true ->
  update_first q f (l1 ++ x :: l2) = l1 ++ f x :: l2.
Proof.
  induction 1 as [|a l1 Ha _ IH]; simpl; intros Hx.
  - now rewrite Hx.
  - rewrite Ha. now rewrite IH.
Qed.

Lemma update_first_miss q f l :
  Forall (fun y => q y = false) l -> update_first q f l = l.
Proof.
  induction 1 as [|a l Ha _ IH]; simpl; [reflexivity|].
  rewrite Ha. now rewrite IH.
Qed.

Lemma update_first_map {B} (key : A -> B) q f l :
  (forall x, key (f x) = key x) ->
  map key (update_first q f l) = map key l.
Proof.
  intros Hkey. induction l as [|a l IH]; simpl; [reflexivity|].
  destruct (q a); simpl; [now rewrite Hkey | now rewrite IH].
Qed.

Lemma update_first_Forall (P : A -> Prop) q f l :
  (forall x, P x -> P (f x)) ->
  Forall P l -> Forall P (update_first q f l).
Proof.
  intros Hf. induction 1 as [|a l Ha Hl IH]; simpl; [constructor|].
  destruct (q a); constructor; auto.
Qed.

(** With a key that no two elements share, the element found by any query
    is the first one that carries its key. *)
Lemma find_split_key {B} (key : A -> B) q l x :
  NoDup (map key l) -> find q l = Some x ->
  exists l1 l2, l = l1 ++ x :: l2 /\ q x = true /\
                Forall (fun y => q y = false) l1 /\
                Forall (fun y => key y <> key x) l1.
Proof.
  intros Hnd Hfind.
  destruct (find_split q l x Hfind) as (l1 & l2 & -> & Hx & Hl1).
  exists l1, l2. repeat split; auto.
  rewrite map_app in Hnd. simpl in Hnd.
  apply NoDup_remove_2 in Hnd.
  apply Forall_forall. intros y Hy Heq. apply Hnd.
  apply in_or_app. left. rewrite <- Heq. now apply in_map.
Qed.

End FirstMatch.

(** ** The handlers in closed form *)

Ltac run_handler :=
  unfold bind, ret, raise, PyObjectId.validate,
    users_find_one, courses_find_one, progress_find_one, courses_find,
    users_insert_one, courses_insert_one, progress_insert_one,
    courses_update_one, progress_update_one, User_of_doc, Course_of_found;
  simpl.

Ltac case_handler :=
  repeat match goal with
    | |- context [match find ?q ?l with _ => _ end] =>
        let H := fresh "Hfind" in destruct (find q l) eqn:H
    | |- context [if ObjectId.is_valid ?c then _ else _] =>
        let H := fresh "Hvalid" in destruct (ObjectId.is_valid c) eqn:H
    | |- context [match ucr_is_instructor ?u with _ => _ end] =>
        let H := fresh "Hflag" in destruct (ucr_is_instructor u) eqn:H
    | |- context [if mem_Z ?k ?l then _ else _] =>
        let H := fresh "Hmem" in destruct (mem_Z k l) eqn:H
    | |- context [if fits_int64 ?k then _ else _] =>
        let H := fresh "Hfits" in destruct (fits_int64 k) eqn:H
    | |- context [if forallb fits_int64 ?l then _ else _] =>
        let H := fresh "Hfits" in destruct (forallb fits_int64 l) eqn:H
    end.

Lemma with_courses_same s : with_courses s (courses s) = s.
Proof. now destruct s. Qed.

Lemma with_progress_same s : with_progress s (progress s) = s.
Proof. now destruct s. Qed.

Lemma create_user_eq user s :
  create_user user s =
  match find (by_username (ucr_username user)) (users s) with
  | Some _ => (Raise (HTTPException 400 "Username already exists"), s)
  | None =>
      (match ucr_is_instructor user with
       | Some b => Return (mkUser (next_oid s) (ucr_username user) b)
       | None => Raise (ValidationError
                          "is_instructor: none is not an allowed value")
       end,
       add_user s (ucr_username user) (ucr_is_instructor user))
  end.
Proof.
  unfold create_user. run_handler.
  destruct (find _ (users s)); [reflexivity|].
  now destruct (ucr_is_instructor user).
Qed.

Lemma create_course_eq course s :
  create_course course s =
  match find (by_username_role (ccr_instructor_username course) true) (users s) with
  | None => (Raise (HTTPException 403 "Only instructors can create courses"), s)
  | Some instructor =>
      let c := mkCourse (next_oid s) (ccr_title course) (ccr_description course)
                        (u_id instructor) [] in
      (Return c, add_course s c)
  end.
Proof.
  unfold create_course. run_handler.
  now destruct (find _ (users s)).
Qed.

Lemma add_quiz_eq cid quiz s :
  add_quiz cid quiz s =
  if ObjectId.is_valid cid then
    match find (course_by_id (ObjectId.of_str cid)) (courses s) with
    | None => (Raise (HTTPException 404 "Course not found"), s)
    | Some c =>
        if fits_int64 (correct_option_index quiz) then
          (Return (push_quizzes quiz c),
           with_courses s (update_first (course_by_id (ObjectId.of_str cid))
                                        (push_quizzes quiz) (courses s)))
        else
          (Raise (OverflowError "MongoDB can only handle up to 8-byte ints"), s)
    end
  else (Raise (ValueError "Invalid ObjectId"), s).
Proof.
  unfold add_quiz. run_handler.
  destruct (ObjectId.is_valid cid); simpl; [|reflexivity].
  destruct (find _ (courses s)) as [c|] eqn:Hfind; [|reflexivity].
  destruct (fits_int64 (correct_option_index quiz)); simpl; [|reflexivity].
  destruct (find_split _ _ _ Hfind) as (l1 & l2 & -> & Hc & Hl1).
  rewrite update_first_at by assumption.
  rewrite find_first; [reflexivity | assumption |].
  unfold course_by_id in *. exact Hc.
Qed.

Lemma list_courses_eq s : list_courses s = (Return (courses s), s).
Proof. reflexivity. Qed.

Lemma enroll_student_eq cid req s :
  enroll_student cid req s =
  match find (by_username_role (student_username req) false) (users s) with
  | None => (Raise (HTTPException 404 "Student not found"), s)
  | Some student =>
      if ObjectId.is_valid cid then
        match find (progress_by_pair (u_id student) (ObjectId.of_str cid))
                   (progress s) with
        | Some p => (Return p, s)
        | None =>
            let p := mkProgress (next_oid s) (u_id student) (ObjectId.of_str cid)
                                [] false in
            (Return p, add_progress s p)
        end
      else (Raise (ValueError "Invalid ObjectId"), s)
  end.
Proof.
  unfold enroll_student. run_handler.
  destruct (find _ (users s)); [|reflexivity].
  destruct (ObjectId.is_valid cid); simpl; [|reflexivity].
  now destruct (find _ (progress s)).
Qed.

Lemma get_progress_eq cid name s :
  get_progress cid name s =
  match find (by_username_role name false) (users s) with
  | None => (Raise (HTTPException 404 "Student not found"), s)
  | Some student =>
      if ObjectId.is_valid cid then
        match find (progress_by_pair (u_id student) (ObjectId.of_str cid))
                   (progress s) with
        | Some p => (Return p, s)
        | None => (Raise (HTTPException 404 "Progress not found"), s)
        end
      else (Raise (ValueError "Invalid ObjectId"), s)
  end.
Proof.
  unfold get_progress. run_handler.
  destruct (find _ (users s)); [|reflexivity].
  destruct (ObjectId.is_valid cid); simpl; [|reflexivity].
  now destruct (find _ (progress s)).
Qed.

Lemma mem_Z_In k l : mem_Z k l = true <-> In k l.
Proof.
  unfold mem_Z. rewrite existsb_exists. split.
  - intros (x & Hx & Heq). apply Z.eqb_eq in Heq. now subst.
  - intros H. exists k. split; [assumption | apply Z.eqb_refl].
Qed.

Lemma complete_quiz_eq cid name req s :
  complete_quiz cid name req s =
  match find (by_username_role name false) (users s) with
  | None => (Raise (HTTPException 404 "Student not found"), s)
  | Some student =>
      if ObjectId.is_valid cid then
        match find (progress_by_pair (u_id student) (ObjectId.of_str cid))
                   (progress s) with
        | None => (Raise (HTTPException 404 "Progress not found"), s)
        | Some p =>
            if mem_Z (quiz_index req) (completed_quizzes p) then
              (Return "Quiz marked complete", s)
            else if forallb fits_int64 (completed_quizzes p ++ [quiz_index req])
            then
              (Return "Quiz marked complete",
               with_progress s
                 (update_first (progress_by_id (p_id p))
                    (set_completed_quizzes
                       (completed_quizzes p ++ [quiz_index req]))
                    (progress s)))
            else
              (Raise (OverflowError "MongoDB can only handle up to 8-byte ints"),
               s)
        end
      else (Raise (ValueError "Invalid ObjectId"), s)
  end.
Proof.
  unfold complete_quiz. run_handler.
  destruct (find _ (users s)); [|reflexivity].
  destruct (ObjectId.is_valid cid); simpl; [|reflexivity].
  destruct (find _ (progress s)) as [p|]; [|reflexivity].
  destruct (mem_Z _ (completed_quizzes p)); simpl; [reflexivity|].
  now destruct (forallb _ _).
Qed.

Lemma complete_assignment_eq cid name s :
  complete_assignment cid name s =
  match find (by_username_role name false) (users s) with
  | None => (Raise (HTTPException 404 "Student not found"), s)
  | Some student =>
      if ObjectId.is_valid cid then
        match find (progress_by_pair (u_id student) (ObjectId.of_str cid))
                   (progress s) with
        | None => (Raise (HTTPException 404 "Progress not found"), s)
        | Some p =>
            (Return "Assignment marked complete",
             with_progress s
               (update_first (progress_by_id (p_id p))
                  (set_assignments_completed true) (progress s)))
        end
      else (Raise (ValueError "Invalid ObjectId"), s)
  end.
Proof.
  unfold complete_assignment. run_handler.
  destruct (find _ (users s)); [|reflexivity].
  destruct (ObjectId.is_valid cid); simpl; [|reflexivity].
  now destruct (find _ (progress s)).
Qed.

(** ** Queries *)

Lemma by_username_spec name u :
  by_username name u = true <-> username u = name.
Proof. unfold by_username. apply String.eqb_eq. Qed.

Lemma by_username_role_spec name role u :
  by_username_role name role u = true <->
  username u = name /\ is_instructor u = Some role.
Proof.
  unfold by_username_role. rewrite andb_true_iff, String.eqb_eq.
  destruct (is_instructor u) as [b|].
  - rewrite Bool.eqb_true_iff. split; intros [H1 H2]; split; congruence.
  - split; intros [H1 H2]; discriminate.
Qed.

Lemma progress_by_pair_spec sid cid p :
  progress_by_pair sid cid p = true <-> progress_key p = (sid, cid).
Proof.
  unfold progress_by_pair, progress_key.
  rewrite andb_true_iff, !N.eqb_eq. split.
  - intros [-> ->]. reflexivity.
  - intros H. injection H. auto.
Qed.

Lemma progress_by_id_spec oid p :
  progress_by_id oid p = true <-> p_id p = oid.
Proof. unfold progress_by_id. apply N.eqb_eq. Qed.

Lemma find_username_none name l :
  find (by_username name) l = None -> ~ In name (map username l).
Proof.
  intros Hfind Hin. apply in_map_iff in Hin as (u & Hu & Hin).
  apply find_none with (x := u) in Hfind; [|assumption].
  apply by_username_spec in Hu. congruence.
Qed.

Lemma find_pair_none sid cid l :
  find (progress_by_pair sid cid) l = None ->
  ~ In (sid, cid) (map progress_key l).
Proof.
  intros Hfind Hin. apply in_map_iff in Hin as (p & Hp & Hin).
  apply find_none with (x := p) in Hfind; [|assumption].
  apply progress_by_pair_spec in Hp. congruence.
Qed.

Lemma find_role_account s name role u :
  find (by_username_role name role) (users s) = Some u ->
  has_account s (u_id u) role /\ username u = name.
Proof.
  intros Hfind. apply find_some in Hfind as [Hin Hq].
  apply by_username_role_spec in Hq as [Hname Hrole].
  split; [|assumption]. exists u. auto.
Qed.

(** ** The invariants are kept by every write *)

Lemma NoDup_snoc {A} (l : list A) (x : A) :
  NoDup l -> ~ In x l -> NoDup (l ++ [x]).
Proof.
  induction 1 as [|a l Ha Hl IH]; simpl; intros Hx.
  - constructor; [auto | constructor].
  - constructor.
    + intros Hin. apply in_app_or in Hin as [Hin|[->|[]]]; auto.
    + apply IH. auto.
Qed.

Lemma lt_not_in {A} (key : A -> N) (l : list A) (n : N) :
  Forall (fun x => (key x < n)%N) l -> ~ In n (map key l).
Proof.
  intros Hall Hin. apply in_map_iff in Hin as (x & Hx & Hin).
  rewrite Forall_forall in Hall. specialize (Hall x Hin). lia.
Qed.

Lemma Forall_lt_succ {A} (key : A -> N) (l : list A) (n : N) :
  Forall (fun x => (key x < n)%N) l ->
  Forall (fun x => (key x < N.succ n)%N) l.
Proof. apply Forall_impl. intros; lia. Qed.

Lemma has_account_add_user s name flag oid role :
  has_account s oid role -> has_account (add_user s name flag) oid role.
Proof.
  intros (u & Hin & Hid & Hrole). exists u. simpl.
  split; [apply in_or_app; now left | auto].
Qed.

Lemma inv_add_user s name flag :
  data_model_invariants s ->
  ~ In name (map username (users s)) ->
  data_model_invariants (add_user s name flag).
Proof.
  intros [Hu Hp Ho Hs (Hi1 & Hi2 & Hi3) (Ha1 & Ha2 & Ha3)] Hfresh.
  split.
  - unfold usernames_unique. simpl. rewrite map_app. now apply NoDup_snoc.
  - exact Hp.
  - unfold owners_are_instructors in *. simpl.
    eapply Forall_impl; [|exact Ho]. intros c. apply has_account_add_user.
  - unfold students_are_not_instructors in *. simpl.
    eapply Forall_impl; [|exact Hs]. intros p. apply has_account_add_user.
  - repeat split; simpl; auto.
    rewrite map_app. apply NoDup_snoc; [assumption|].
    now apply lt_not_in.
  - repeat split; simpl; try now apply Forall_lt_succ.
    apply Forall_app. split; [now apply Forall_lt_succ|].
    constructor; [simpl; lia | constructor].
Qed.

Lemma inv_add_course s c :
  data_model_invariants s ->
  c_id c = next_oid s ->
  has_account s (instructor_id c) true ->
  data_model_invariants (add_course s c).
Proof.
  intros [Hu Hp Ho Hs (Hi1 & Hi2 & Hi3) (Ha1 & Ha2 & Ha3)] Hid Hacc.
  split.
  - exact Hu.
  - exact Hp.
  - unfold owners_are_instructors in *. simpl.
    apply Forall_app. split; [exact Ho|].
    constructor; [exact Hacc | constructor].
  - exact Hs.
  - repeat split; simpl; auto.
    rewrite map_app. apply NoDup_snoc; [assumption|].
    simpl. rewrite Hid. now apply lt_not_in.
  - repeat split; simpl; try now apply Forall_lt_succ.
    apply Forall_app. split; [now apply Forall_lt_succ|].
    constructor; [lia | constructor].
Qed.

Lemma inv_add_progress s p :
  data_model_invariants s ->
  p_id p = next_oid s ->
  has_account s (student_id p) false ->
  ~ In (progress_key p) (map progress_key (progress s)) ->
  data_model_invariants (add_progress s p).
Proof.
  intros [Hu Hp Ho Hs (Hi1 & Hi2 & Hi3) (Ha1 & Ha2 & Ha3)] Hid Hacc Hfresh.
  split.
  - exact Hu.
  - unfold one_progress_per_pair. simpl. rewrite map_app. now apply NoDup_snoc.
  - exact Ho.
  - unfold students_are_not_instructors in *. simpl.
    apply Forall_app. split; [exact Hs|].
    constructor; [exact Hacc | constructor].
  - repeat split; simpl; auto.
    rewrite map_app. apply NoDup_snoc; [assumption|].
    simpl. rewrite Hid. now apply lt_not_in.
  - repeat split; simpl; try now apply Forall_lt_succ.
    apply Forall_app. split; [now apply Forall_lt_succ|].
    constructor; [lia | constructor].
Qed.

Lemma inv_update_course s q f :
  data_model_invariants s ->
  (forall c, c_id (f c) = c_id c) ->
  (forall c, instructor_id (f c) = instructor_id c) ->
  data_model_invariants (with_courses s (update_first q f (courses s))).
Proof.
  intros [Hu Hp Ho Hs (Hi1 & Hi2 & Hi3) (Ha1 & Ha2 & Ha3)] Hid Hown.
  split; try assumption.
  - unfold owners_are_instructors in *. simpl.
    apply update_first_Forall; [|exact Ho].
    intros c Hc. now rewrite Hown.
  - repeat split; simpl; auto. now rewrite update_first_map.
  - repeat split; simpl; auto.
    apply update_first_Forall; [|exact Ha2]. intros c Hc. now rewrite Hid.
Qed.

Lemma inv_update_progress s q f :
  data_model_invariants s ->
  (forall p, p_id (f p) = p_id p) ->
  (forall p, progress_key (f p) = progress_key p) ->
  data_model_invariants (with_progress s (update_first q f (progress s))).
Proof.
  intros [Hu Hp Ho Hs (Hi1 & Hi2 & Hi3) (Ha1 & Ha2 & Ha3)] Hid Hkey.
  split; try assumption.
  - unfold one_progress_per_pair in *. simpl. now rewrite update_first_map.
  - unfold students_are_not_instructors in *. simpl.
    apply update_first_Forall; [|exact Hs].
    intros p Hacc. specialize (Hkey p). unfold progress_key in Hkey.
    injection Hkey as Hsid _. now rewrite Hsid.
  - repeat split; simpl; auto. now rewrite update_first_map.
  - repeat split; simpl; auto.
    apply update_first_Forall; [|exact Ha3]. intros p Hlt. now rewrite Hid.
Qed.

Lemma inv_empty : data_model_invariants empty_store.
Proof.
  split; try (repeat split; simpl; constructor); constructor.
Qed.

Lemma handle_preserves r s :
  data_model_invariants s -> data_model_invariants (handle r s).
Proof.
  intros Hinv. destruct r as [user|course|cid quiz| |cid req|cid name|cid name req|cid name];
    simpl.
  - rewrite create_user_eq.
    destruct (find _ (users s)) eqn:Hfind; simpl; [assumption|].
    apply inv_add_user; [assumption | now apply find_username_none].
  - rewrite create_course_eq.
    destruct (find _ (users s)) as [u|] eqn:Hfind; simpl; [|assumption].
    apply inv_add_course; [assumption | reflexivity |].
    now apply find_role_account in Hfind.
  - rewrite add_quiz_eq.
    destruct (ObjectId.is_valid cid); [|assumption].
    destruct (find _ (courses s)); simpl; [|assumption].
    destruct (fits_int64 _); simpl; [|assumption].
    now apply inv_update_course.
  - assumption.
  - rewrite enroll_student_eq.
    destruct (find _ (users s)) as [u|] eqn:Hu; [|assumption].
    destruct (ObjectId.is_valid cid); [|assumption].
    destruct (find _ (progress s)) eqn:Hp; simpl; [assumption|].
    apply inv_add_progress; [assumption | reflexivity | |].
    + now apply find_role_account in Hu.
    + now apply find_pair_none.
  - rewrite get_progress_eq.
    destruct (find _ (users s)); [|assumption].
    destruct (ObjectId.is_valid cid); [|assumption].
    now destruct (find _ (progress s)).
  - rewrite complete_quiz_eq.
    destruct (find _ (users s)); [|assumption].
    destruct (ObjectId.is_valid cid); [|assumption].
    destruct (find _ (progress s)) as [p|]; simpl; [|assumption].
    destruct (mem_Z _ _); [assumption|].
    destruct (forallb _ _); simpl; [|assumption].
    now apply inv_update_progress.
  - rewrite complete_assignment_eq.
    destruct (find _ (users s)); [|assumption].
    destruct (ObjectId.is_valid cid); [|assumption].
    destruct (find _ (progress s)) as [p|]; simpl; [|assumption].
    now apply inv_update_progress.
Qed.

Lemma run_preserves reqs s :
  data_model_invariants s -> data_model_invariants (run reqs s).
Proof.
  revert s. induction reqs as [|r reqs IH]; intros s Hinv; simpl.
  - assumption.
  - apply IH. now apply handle_preserves.
Qed.

(** ** Facts about the sample run *)

Example sample_store_value :
  sample_store =
  mkStore [alice; mkUserDoc 1%N "bob" (Some true)]
          [mkCourse 2%N "Logic" None 1%N []]
          [sample_progress] 4%N.
Proof. reflexivity. Qed.

Example sample_course_id_valid : ObjectId.is_valid sample_course_id = true.
Proof. reflexivity. Qed.

Example sample_course_id_value : ObjectId.of_str sample_course_id = 2%N.
Proof. reflexivity. Qed.

Example unknown_course_id_value :
  ObjectId.is_valid unknown_course_id = true /\
  ObjectId.of_str unknown_course_id = 24912482966938930280208240657%N.
Proof. split; reflexivity. Qed.

(** ** The completed set *)

Lemma add_index_In k l x : In x (add_index k l) <-> In x l \/ x = k.
Proof.
  unfold add_index. destruct (mem_Z k l) eqn:Hmem.
  - apply mem_Z_In in Hmem. split; [auto|]. intros [H| ->]; assumption.
  - rewrite in_app_iff. simpl. split.
    + intros [H|[H|[]]]; auto.
    + intros [H|H]; auto.
Qed.

Lemma mem_Z_add_index k l : mem_Z k (add_index k l) = true.
Proof. apply mem_Z_In, add_index_In. now right. Qed.

Lemma add_index_idem k l : add_index k (add_index k l) = add_index k l.
Proof. unfold add_index at 1. now rewrite mem_Z_add_index. Qed.

Lemma set_completed_quizzes_same p :
  set_completed_quizzes (completed_quizzes p) p = p.
Proof. now destruct p. Qed.

(** ** Updates of a progress record that was found *)

Lemma forallb_add_index k l :
  fits_int64 k = true -> forallb fits_int64 l = true ->
  forallb fits_int64 (add_index k l) = true.
Proof.
  intros Hk Hl. unfold add_index. destruct (mem_Z k l); [assumption|].
  rewrite forallb_app, Hl. simpl. now rewrite Hk.
Qed.

Lemma complete_quiz_found cid name req s student p :
  ObjectId.is_valid cid = true ->
  NoDup (map p_id (progress s)) ->
  find (by_username_role name false) (users s) = Some student ->
  find (progress_by_pair (u_id student) (ObjectId.of_str cid)) (progress s)
    = Some p ->
  forallb fits_int64 (add_index (quiz_index req) (completed_quizzes p)) = true ->
  exists l1 l2,
    progress s = l1 ++ p :: l2 /\
    Forall (fun y => progress_by_pair (u_id student) (ObjectId.of_str cid) y
                     = false) l1 /\
    complete_quiz cid name req s =
    (Return "Quiz marked complete",
     with_progress s
       (l1 ++ set_completed_quizzes
                (add_index (quiz_index req) (completed_quizzes p)) p :: l2)).
Proof.
  intros Hvalid Hnd Hstudent Hfind Hfit.
  destruct (find_split_key p_id _ _ _ Hnd Hfind) as (l1 & l2 & Hl & Hp & Hl1 & Hids).
  exists l1, l2. split; [assumption|]. split; [assumption|].
  rewrite complete_quiz_eq, Hstudent, Hvalid, Hfind.
  unfold add_index in *. destruct (mem_Z _ _).
  - rewrite set_completed_quizzes_same, <- Hl. now rewrite with_progress_same.
  - rewrite Hfit, Hl, update_first_at; [reflexivity | | apply N.eqb_refl].
    eapply Forall_impl; [|exact Hids].
    intros y Hy. now apply N.eqb_neq.
Qed.

Lemma complete_assignment_found cid name s student p :
  ObjectId.is_valid cid = true ->
  NoDup (map p_id (progress s)) ->
  find (by_username_role name false) (users s) = Some student ->
  find (progress_by_pair (u_id student) (ObjectId.of_str cid)) (progress s)
    = Some p ->
  exists l1 l2,
    progress s = l1 ++ p :: l2 /\
    Forall (fun y => progress_by_pair (u_id student) (ObjectId.of_str cid) y
                     = false) l1 /\
    complete_assignment cid name s =
    (Return "Assignment marked complete",
     with_progress s (l1 ++ set_assignments_completed true p :: l2)).
Proof.
  intros Hvalid Hnd Hstudent Hfind.
  destruct (find_split_key p_id _ _ _ Hnd Hfind) as (l1 & l2 & Hl & Hp & Hl1 & Hids).
  exists l1, l2. split; [assumption|]. split; [assumption|].
  rewrite complete_assignment_eq, Hstudent, Hvalid, Hfind.
  rewrite Hl, update_first_at; [reflexivity | | apply N.eqb_refl].
  eapply Forall_impl; [|exact Hids].
  intros y Hy. now apply N.eqb_neq.
Qed.

Lemma NoDup_ids_replace (l1 l2 : list Progress) (p p' : Progress) :
  p_id p' = p_id p ->
  NoDup (map p_id (l1 ++ p :: l2)) -> NoDup (map p_id (l1 ++ p' :: l2)).
Proof.
  intros Hid. rewrite !map_app. simpl. now rewrite Hid.
Qed.

(** * The claims *)

(** ** Enrollment *)

(** C1. Enrollment is idempotent.  For a student username that resolves to a
    non-instructor account and a course id: when a Progress record of the
    pair exists, [enroll_student] returns that record and leaves the store as
    it was; when none exists, one with no completed quizzes and
    [assignments_completed = false] is appended to the progress collection and
    returned; and enrolling again gives the same record back and changes
    nothing. *)
Theorem enroll_student_idempotent cid req s student :
  ObjectId.is_valid cid = true ->
  find (by_username_role (student_username req) false) (users s) = Some student ->
  (forall p,
      find (progress_by_pair (u_id student) (ObjectId.of_str cid)) (progress s)
        = Some p ->
      enroll_student cid req s = (Return p, s)) /\
  (find (progress_by_pair (u_id student) (ObjectId.of_str cid)) (progress s)
     = None ->
   exists p,
     completed_quizzes p = [] /\ assignments_completed p = false /\
     student_id p = u_id student /\ course_id p = ObjectId.of_str cid /\
     enroll_student cid req s =
     (Return p, mkStore (users s) (courses s) (progress s ++ [p])
                        (N.succ (next_oid s)))) /\
  (exists p s',
      enroll_student cid req s = (Return p, s') /\
      enroll_student cid req s' = (Return p, s')).
Proof.
  intros Hvalid Hstudent.
  pose proof (enroll_student_eq cid req s) as Heq.
  rewrite Hstudent, Hvalid in Heq.
  repeat split.
  - intros p Hp. now rewrite Hp in Heq.
  - intros Hnone. rewrite Hnone in Heq.
    eexists. repeat split; [..|exact Heq]; reflexivity.
  - destruct (find _ (progress s)) as [p|] eqn:Hp.
    + exists p, s. auto.
    + simpl in Heq. eexists. eexists. split; [exact Heq|].
      rewrite enroll_student_eq. simpl. rewrite Hstudent, Hvalid.
      rewrite (find_app_none _ _ _ Hp). simpl.
      unfold progress_by_pair. simpl. now rewrite !N.eqb_refl.
Qed.

Lemma enroll_student_idempotent_witness :
  exists p s',
    enroll_student sample_course_id (mkEnrollRequest "alice") sample_store
      = (Return p, s') /\
    enroll_student sample_course_id (mkEnrollRequest "alice") s'
      = (Return p, s').
Proof.
  destruct (enroll_student_idempotent sample_course_id (mkEnrollRequest "alice")
              sample_store alice) as (_ & _ & H);
    [reflexivity | reflexivity | exact H].
Defined.

(** ** Quiz completion *)

(** The indices that a store reached from the empty store holds fit 8
    bytes, as the theorems on [complete_quiz] ask of the record. *)
Lemma handle_completed_fit r s : completed_fit s -> completed_fit (handle r s).
Proof.
  unfold completed_fit. intros Hfit.
  destruct r as [user|course|cid quiz| |cid req|cid name|cid name req|cid name];
    unfold handle;
    rewrite ?create_user_eq, ?create_course_eq, ?add_quiz_eq, ?list_courses_eq,
      ?enroll_student_eq, ?get_progress_eq, ?complete_quiz_eq,
      ?complete_assignment_eq;
    simpl; case_handler; simpl; try assumption.
  - apply Forall_app. split; [assumption|]. constructor; [reflexivity|constructor].
  - apply update_first_Forall; [|assumption]. intros x _. simpl. assumption.
  - apply update_first_Forall; [|assumption]. intros x Hx. exact Hx.
Qed.

Lemma reachable_completed_fit reqs : completed_fit (run reqs empty_store).
Proof.
  assert (H : forall s, completed_fit s -> completed_fit (run reqs s)).
  { induction reqs as [|r reqs IH]; intros s Hs; simpl; [assumption|].
    apply IH. now apply handle_completed_fit. }
  apply H. constructor.
Qed.

(** C2, as stated, fails: the index [2^63] does not fit 8 bytes, the update
    raises [OverflowError], and the record's completed indices stay as they
    were, without the index. *)
Lemma complete_quiz_idempotent_add_counterexample :
  complete_quiz sample_course_id "alice" (mkCompleteQuizRequest (2 ^ 63))
                sample_store
  = (Raise (OverflowError "MongoDB can only handle up to 8-byte ints"),
     sample_store) /\
  find (progress_by_pair 0%N 2%N) (progress sample_store) = Some sample_progress /\
  ~ In (2 ^ 63)%Z (completed_quizzes sample_progress).
Proof.
  split; [vm_compute; reflexivity|]. split; [reflexivity|]. intros [].
Qed.

(** C2, amended.  Marking a quiz complete is an idempotent add for an index
    that fits 8 bytes.  For a Progress record that the handler finds and whose
    stored indices fit 8 bytes, the record afterwards has the old completed
    indices together with the given one and is otherwise as before, and
    completing the same index again leaves the store as it is. *)
Theorem complete_quiz_idempotent_add cid name req s student p :
  ObjectId.is_valid cid = true ->
  NoDup (map p_id (progress s)) ->
  find (by_username_role name false) (users s) = Some student ->
  find (progress_by_pair (u_id student) (ObjectId.of_str cid)) (progress s)
    = Some p ->
  fits_int64 (quiz_index req) = true ->
  forallb fits_int64 (completed_quizzes p) = true ->
  exists s' p',
    complete_quiz cid name req s = (Return "Quiz marked complete", s') /\
    find (progress_by_pair (u_id student) (ObjectId.of_str cid)) (progress s')
      = Some p' /\
    (forall k, In k (completed_quizzes p') <->
               In k (completed_quizzes p) \/ k = quiz_index req) /\
    p_id p' = p_id p /\ student_id p' = student_id p /\
    course_id p' = course_id p /\
    assignments_completed p' = assignments_completed p /\
    complete_quiz cid name req s' = (Return "Quiz marked complete", s').
Proof.
  intros Hvalid Hnd Hstudent Hfind Hk Hold.
  pose proof (forallb_add_index _ _ Hk Hold) as Hfit.
  destruct (complete_quiz_found cid name req s student p
              Hvalid Hnd Hstudent Hfind Hfit)
    as (l1 & l2 & Hl & Hl1 & Hrun).
  set (p' := set_completed_quizzes
               (add_index (quiz_index req) (completed_quizzes p)) p) in *.
  assert (Hp : progress_by_pair (u_id student) (ObjectId.of_str cid) p = true).
  { apply find_some in Hfind. apply Hfind. }
  assert (Hfind' : find (progress_by_pair (u_id student) (ObjectId.of_str cid))
                        (l1 ++ p' :: l2) = Some p').
  { apply find_first; assumption. }
  exists (with_progress s (l1 ++ p' :: l2)), p'.
  split; [exact Hrun|]. split; [exact Hfind'|].
  split; [intros k; apply add_index_In|].
  repeat (split; [reflexivity|]).
  destruct (complete_quiz_found cid name req (with_progress s (l1 ++ p' :: l2))
              student p' Hvalid) as (m1 & m2 & Hm & Hm1 & Hrun2).
  - simpl. apply NoDup_ids_replace with (p := p); [reflexivity|].
    now rewrite <- Hl.
  - exact Hstudent.
  - exact Hfind'.
  - simpl. now rewrite add_index_idem.
  - rewrite Hrun2. f_equal. unfold with_progress. simpl. f_equal.
    simpl in Hm. rewrite Hm at 1. simpl.
    rewrite add_index_idem.
    change (set_completed_quizzes
              (add_index (quiz_index req) (completed_quizzes p)) p')
      with p'.
    reflexivity.
Qed.

Lemma complete_quiz_idempotent_add_witness :
  exists s' p',
    complete_quiz sample_course_id "alice" (mkCompleteQuizRequest 2) sample_store
      = (Return "Quiz marked complete", s') /\
    find (progress_by_pair 0%N (ObjectId.of_str sample_course_id)) (progress s')
      = Some p' /\
    (forall k, In k (completed_quizzes p') <-> In k [] \/ k = 2%Z) /\
    p_id p' = 3%N /\ student_id p' = 0%N /\
    course_id p' = ObjectId.of_str sample_course_id /\
    assignments_completed p' = false /\
    complete_quiz sample_course_id "alice" (mkCompleteQuizRequest 2) s'
      = (Return "Quiz marked complete", s').
Proof.
  apply (complete_quiz_idempotent_add sample_course_id "alice"
           (mkCompleteQuizRequest 2) sample_store alice sample_progress).
  - reflexivity.
  - simpl. constructor; [intros [] | constructor].
  - reflexivity.
  - reflexivity.
  - reflexivity.
  - reflexivity.
Defined.

(** ** Registration *)

(** A taken username is refused and nothing is stored. *)
Lemma create_user_taken user s u :
  find (by_username (ucr_username user)) (users s) = Some u ->
  create_user user s = (Raise (HTTPException 400 "Username already exists"), s).
Proof. intros H. now rewrite create_user_eq, H. Qed.

(** A free username with a boolean flag: one user is appended and returned. *)
Lemma create_user_free name b s :
  find (by_username name) (users s) = None ->
  create_user (mkUserCreateRequest name (Some b)) s =
  (Return (mkUser (next_oid s) name b),
   mkStore (users s ++ [mkUserDoc (next_oid s) name (Some b)]) (courses s)
           (progress s) (N.succ (next_oid s))).
Proof. intros H. rewrite create_user_eq. simpl. now rewrite H. Qed.

(** C3. Where the code leaves the claim: a request with a free username and
    [is_instructor = None], which [UserCreateRequest] allows, stores a user
    document and then raises while building the [User] that was to be
    returned; the registration fails although the username was not taken,
    and a document was inserted by a request that failed. *)
Theorem create_user_null_flag_inserts_then_raises name s :
  find (by_username name) (users s) = None ->
  exists e,
    create_user (mkUserCreateRequest name None) s =
    (Raise e,
     mkStore (users s ++ [mkUserDoc (next_oid s) name None]) (courses s)
             (progress s) (N.succ (next_oid s))) /\
    is_http_error e = false.
Proof.
  intros H. rewrite create_user_eq. simpl. rewrite H.
  eexists. split; reflexivity.
Qed.

Lemma create_user_null_flag_inserts_then_raises_witness :
  exists e,
    create_user (mkUserCreateRequest "carol" None) empty_store =
    (Raise e, mkStore [mkUserDoc 0%N "carol" None] [] [] 1%N) /\
    is_http_error e = false.
Proof.
  apply (create_user_null_flag_inserts_then_raises "carol" empty_store).
  reflexivity.
Defined.

(** ** Course creation *)

(** C4. Course creation is instructor-only.  When no account carries the
    given username together with [is_instructor = true], [create_course]
    fails with status 403 and the store is unchanged; when one does, a course
    with the given title and description, the id of the first such account as
    owner, and no quizzes is appended and returned. *)
Theorem create_course_instructor_only course s :
  ((forall u, In u (users s) ->
              username u = ccr_instructor_username course ->
              is_instructor u <> Some true) ->
   create_course course s =
   (Raise (HTTPException 403 "Only instructors can create courses"), s)) /\
  (forall u,
      find (by_username_role (ccr_instructor_username course) true) (users s)
        = Some u ->
      In u (users s) /\ username u = ccr_instructor_username course /\
      is_instructor u = Some true /\
      exists c,
        title c = ccr_title course /\
        description c = ccr_description course /\
        instructor_id c = u_id u /\ quizzes c = [] /\
        create_course course s =
        (Return c, mkStore (users s) (courses s ++ [c]) (progress s)
                           (N.succ (next_oid s)))) /\
  ((exists u, In u (users s) /\
              username u = ccr_instructor_username course /\
              is_instructor u = Some true) ->
   exists u,
     find (by_username_role (ccr_instructor_username course) true) (users s)
       = Some u).
Proof.
  split; [|split].
  - intros Hnone. rewrite create_course_eq.
    destruct (find _ (users s)) as [u|] eqn:Hfind; [|reflexivity].
    apply find_some in Hfind as [Hin Hq].
    apply by_username_role_spec in Hq as [Hname Hrole].
    now destruct (Hnone u Hin Hname).
  - intros u Hfind.
    destruct (find_some _ _ Hfind) as [Hin Hq].
    apply by_username_role_spec in Hq as [Hname Hrole].
    repeat (split; [assumption|]).
    rewrite create_course_eq, Hfind. simpl.
    eexists. repeat split; reflexivity.
  - intros (u & Hin & Hname & Hrole).
    destruct (find _ (users s)) as [v|] eqn:Hfind; [now exists v|].
    apply find_none with (x := u) in Hfind; [|assumption].
    assert (by_username_role (ccr_instructor_username course) true u = true)
      by now apply by_username_role_spec.
    congruence.
Qed.

Lemma create_course_instructor_only_witness :
  create_course (mkCourseCreateRequest "Sets" None "alice") sample_store =
  (Raise (HTTPException 403 "Only instructors can create courses"), sample_store).
Proof.
  destruct (create_course_instructor_only
              (mkCourseCreateRequest "Sets" None "alice") sample_store)
    as [H _].
  apply H.
  intros u [<-|[<-|[]]]; simpl; intros Hname; discriminate.
Defined.

(** ** Quiz questions *)

(** C6, as stated, fails: the course of the sample run exists, and a
    question whose [correct_option_index] is [2^63] is not appended; the
    update raises [OverflowError] and the course keeps its quizzes. *)
Lemma add_quiz_appends_counterexample :
  find (course_by_id (ObjectId.of_str sample_course_id)) (courses sample_store)
  = Some (mkCourse 2%N "Logic" None 1%N []) /\
  add_quiz sample_course_id (mkQuizQuestion "2 + 2 = ?" ["3"; "4"] (2 ^ 63))
           sample_store
  = (Raise (OverflowError "MongoDB can only handle up to 8-byte ints"),
     sample_store).
Proof.
  split; [reflexivity | vm_compute; reflexivity].
Qed.

(** C6, amended.  Appending a quiz question.  For a course id that no course
    carries, [add_quiz] fails with status 404 and the store is unchanged; for
    one that a course carries and a question whose [correct_option_index]
    fits 8 bytes, that course's quizzes become the old ones followed by the
    new question, its other fields and every other document stay as they
    were, and the updated course is returned. *)
Theorem add_quiz_appends cid quiz s :
  ObjectId.is_valid cid = true ->
  (find (course_by_id (ObjectId.of_str cid)) (courses s) = None ->
   add_quiz cid quiz s = (Raise (HTTPException 404 "Course not found"), s)) /\
  (forall c,
      find (course_by_id (ObjectId.of_str cid)) (courses s) = Some c ->
      fits_int64 (correct_option_index quiz) = true ->
      exists l1 l2 c',
        courses s = l1 ++ c :: l2 /\
        add_quiz cid quiz s =
        (Return c', mkStore (users s) (l1 ++ c' :: l2) (progress s) (next_oid s)) /\
        find (course_by_id (ObjectId.of_str cid)) (l1 ++ c' :: l2) = Some c' /\
        quizzes c' = quizzes c ++ [quiz] /\
        c_id c' = c_id c /\ title c' = title c /\
        description c' = description c /\
        instructor_id c' = instructor_id c).
Proof.
  intros Hvalid. split.
  - intros Hnone. now rewrite add_quiz_eq, Hvalid, Hnone.
  - intros c Hfind Hfits.
    destruct (find_split _ _ _ Hfind) as (l1 & l2 & Hl & Hc & Hl1).
    exists l1, l2, (push_quizzes quiz c).
    split; [assumption|]. split.
    + rewrite add_quiz_eq, Hvalid, Hfind, Hfits, Hl.
      now rewrite update_first_at.
    + split; [|repeat split; reflexivity].
      apply find_first; assumption.
Qed.

Lemma add_quiz_appends_witness :
  exists l1 l2 c',
    courses sample_store = l1 ++ mkCourse 2%N "Logic" None 1%N [] :: l2 /\
    add_quiz sample_course_id sample_quiz sample_store =
    (Return c', mkStore (users sample_store) (l1 ++ c' :: l2)
                        (progress sample_store) (next_oid sample_store)) /\
    find (course_by_id (ObjectId.of_str sample_course_id)) (l1 ++ c' :: l2)
      = Some c' /\
    quizzes c' = [] ++ [sample_quiz] /\
    c_id c' = 2%N /\ title c' = "Logic" /\
    description c' = None /\ instructor_id c' = 1%N.
Proof.
  destruct (add_quiz_appends sample_course_id sample_quiz sample_store)
    as [_ H]; [reflexivity|].
  apply (H (mkCourse 2%N "Logic" None 1%N [])); reflexivity.
Defined.

Example add_quiz_unknown_course_sample :
  add_quiz unknown_course_id sample_quiz sample_store =
  (Raise (HTTPException 404 "Course not found"), sample_store).
Proof. reflexivity. Qed.

Example add_quiz_sample :
  add_quiz sample_course_id sample_quiz sample_store =
  (Return (mkCourse 2%N "Logic" None 1%N [sample_quiz]),
   mkStore (users sample_store) [mkCourse 2%N "Logic" None 1%N [sample_quiz]]
           (progress sample_store) 4%N).
Proof. reflexivity. Qed.

(** ** Assignment completion *)

(** C7. Marking the assignment complete sets the flag and nothing else.  For
    a Progress record that the handler finds, the record afterwards has
    [assignments_completed = true] and its other fields as before, every other
    document of every collection is as before, and a second call leaves the
    store as the first one left it. *)
Theorem complete_assignment_sets_flag_only cid name s student p :
  ObjectId.is_valid cid = true ->
  NoDup (map p_id (progress s)) ->
  find (by_username_role name false) (users s) = Some student ->
  find (progress_by_pair (u_id student) (ObjectId.of_str cid)) (progress s)
    = Some p ->
  exists l1 l2 p' s',
    progress s = l1 ++ p :: l2 /\
    s' = mkStore (users s) (courses s) (l1 ++ p' :: l2) (next_oid s) /\
    complete_assignment cid name s = (Return "Assignment marked complete", s') /\
    assignments_completed p' = true /\
    completed_quizzes p' = completed_quizzes p /\
    student_id p' = student_id p /\ course_id p' = course_id p /\
    p_id p' = p_id p /\
    complete_assignment cid name s' = (Return "Assignment marked complete", s').
Proof.
  intros Hvalid Hnd Hstudent Hfind.
  destruct (complete_assignment_found cid name s student p
              Hvalid Hnd Hstudent Hfind) as (l1 & l2 & Hl & Hl1 & Hrun).
  set (p' := set_assignments_completed true p) in *.
  assert (Hp : progress_by_pair (u_id student) (ObjectId.of_str cid) p = true).
  { apply find_some in Hfind. apply Hfind. }
  exists l1, l2, p', (with_progress s (l1 ++ p' :: l2)).
  split; [assumption|]. split; [reflexivity|]. split; [exact Hrun|].
  repeat (split; [reflexivity|]).
  destruct (complete_assignment_found cid name (with_progress s (l1 ++ p' :: l2))
              student p' Hvalid) as (m1 & m2 & Hm & Hm1 & Hrun2).
  - simpl. apply NoDup_ids_replace with (p := p); [reflexivity|].
    now rewrite <- Hl.
  - exact Hstudent.
  - simpl. apply find_first; assumption.
  - rewrite Hrun2. f_equal. unfold with_progress. simpl. f_equal.
    simpl in Hm. rewrite Hm at 1.
    change (set_assignments_completed true p') with p'. reflexivity.
Qed.

Lemma complete_assignment_sets_flag_only_witness :
  exists l1 l2 p' s',
    progress sample_store = l1 ++ sample_progress :: l2 /\
    s' = mkStore (users sample_store) (courses sample_store) (l1 ++ p' :: l2)
                 (next_oid sample_store) /\
    complete_assignment sample_course_id "alice" sample_store
      = (Return "Assignment marked complete", s') /\
    assignments_completed p' = true /\
    completed_quizzes p' = [] /\
    student_id p' = 0%N /\ course_id p' = 2%N /\ p_id p' = 3%N /\
    complete_assignment sample_course_id "alice" s'
      = (Return "Assignment marked complete", s').
Proof.
  apply (complete_assignment_sets_flag_only sample_course_id "alice"
           sample_store alice sample_progress).
  - reflexivity.
  - simpl. constructor; [intros [] | constructor].
  - reflexivity.
  - reflexivity.
Defined.

(** ** Failures *)



(** A [course_id] with whitespace between its digit pairs is valid, as
    [bytes.fromhex] skips it, and names an id that no 24 digits name. *)
Example whitespace_course_id_valid :
  ObjectId.is_valid "0000 0000 0000 0000 0002" = true /\
  ObjectId.is_valid "0000 0000 0000 0000 002 " = false /\
  ObjectId.is_valid "00000000000000000000000g" = false /\
  ObjectId.of_str "0000 0000 0000 0000 0002" <> ObjectId.of_str sample_course_id.
Proof. repeat split. discriminate. Qed.

(** ** Enrollment and quiz completion check nothing about the course *)

(** C9. Enrollment does not require the course to exist.  For a valid
    [course_id] that no course carries and a username that resolves to a
    non-instructor account, [enroll_student] returns a Progress record of
    that student whose course id still refers to no course, the record is in
    the progress collection afterwards, and it was appended by this call
    unless the student was enrolled already. *)
Theorem enroll_student_unknown_course cid req s student :
  ObjectId.is_valid cid = true ->
  find (course_by_id (ObjectId.of_str cid)) (courses s) = None ->
  find (by_username_role (student_username req) false) (users s) = Some student ->
  exists p s',
    enroll_student cid req s = (Return p, s') /\
    In p (progress s') /\
    student_id p = u_id student /\
    course_id p = ObjectId.of_str cid /\
    find (course_by_id (course_id p)) (courses s') = None /\
    (forall c, In c (courses s') -> c_id c <> course_id p) /\
    (find (progress_by_pair (u_id student) (ObjectId.of_str cid)) (progress s)
       = None ->
     progress s' = progress s ++ [p]).
Proof.
  intros Hvalid Hcourse Hstudent.
  assert (Hno : forall c, In c (courses s) -> c_id c <> ObjectId.of_str cid).
  { intros c Hin. apply find_none with (x := c) in Hcourse; [|assumption].
    now apply N.eqb_neq. }
  pose proof (enroll_student_eq cid req s) as Heq.
  rewrite Hstudent, Hvalid in Heq.
  destruct (find _ (progress s)) as [p|] eqn:Hp.
  - exists p, s. split; [exact Heq|].
    apply find_some in Hp as [Hin Hq].
    apply progress_by_pair_spec in Hq. unfold progress_key in Hq.
    injection Hq as Hsid Hcid. rewrite Hcid.
    repeat split; auto. discriminate.
  - simpl in Heq. eexists. eexists. split; [exact Heq|]. simpl.
    repeat split; auto.
    apply in_or_app. right. now left.
Qed.

Lemma enroll_student_unknown_course_witness :
  exists p s',
    enroll_student unknown_course_id (mkEnrollRequest "alice") sample_store
      = (Return p, s') /\
    In p (progress s') /\
    student_id p = 0%N /\
    course_id p = ObjectId.of_str unknown_course_id /\
    find (course_by_id (course_id p)) (courses s') = None /\
    (forall c, In c (courses s') -> c_id c <> course_id p) /\
    (find (progress_by_pair 0%N (ObjectId.of_str unknown_course_id))
          (progress sample_store) = None ->
     progress s' = progress sample_store ++ [p]).
Proof.
  apply (enroll_student_unknown_course unknown_course_id
           (mkEnrollRequest "alice") sample_store alice); reflexivity.
Defined.

Example enroll_student_unknown_course_sample :
  enroll_student unknown_course_id (mkEnrollRequest "alice") sample_store =
  (Return (mkProgress 4%N 0%N 24912482966938930280208240657%N [] false),
   mkStore (users sample_store) (courses sample_store)
           [sample_progress;
            mkProgress 4%N 0%N 24912482966938930280208240657%N [] false]
           5%N).
Proof. reflexivity. Qed.

(** C10, as stated, fails: the index [-2^63 - 1] does not fit 8 bytes, and
    [complete_quiz] raises [OverflowError] and records nothing. *)
Lemma complete_quiz_no_bounds_check_counterexample :
  get_progress sample_course_id "alice" sample_store
  = (Return sample_progress, sample_store) /\
  complete_quiz sample_course_id "alice" (mkCompleteQuizRequest (- 2 ^ 63 - 1))
                sample_store
  = (Raise (OverflowError "MongoDB can only handle up to 8-byte ints"),
     sample_store).
Proof.
  split; [reflexivity | vm_compute; reflexivity].
Qed.

(** C10, amended.  [complete_quiz] checks the index against no course.  For
    a Progress record that the handler finds, whose stored indices fit 8
    bytes, and any integer index that fits 8 bytes, whatever the courses
    collection holds, the call returns and the record's completed indices
    contain the index afterwards. *)
Theorem complete_quiz_no_bounds_check cid name (k : Z) s student p :
  ObjectId.is_valid cid = true ->
  NoDup (map p_id (progress s)) ->
  find (by_username_role name false) (users s) = Some student ->
  find (progress_by_pair (u_id student) (ObjectId.of_str cid)) (progress s)
    = Some p ->
  (- 2 ^ 63 <= k < 2 ^ 63)%Z ->
  forallb fits_int64 (completed_quizzes p) = true ->
  exists s' p',
    complete_quiz cid name (mkCompleteQuizRequest k) s
      = (Return "Quiz marked complete", s') /\
    find (progress_by_pair (u_id student) (ObjectId.of_str cid)) (progress s')
      = Some p' /\
    In k (completed_quizzes p') /\
    courses s' = courses s.
Proof.
  intros Hvalid Hnd Hstudent Hfind Hk Hold.
  assert (Hfits : fits_int64 k = true).
  { unfold fits_int64. apply andb_true_iff. split.
    - apply Z.leb_le. apply Hk.
    - apply Z.ltb_lt. apply Hk. }
  pose proof (forallb_add_index _ _ Hfits Hold) as Hfit.
  destruct (complete_quiz_found cid name (mkCompleteQuizRequest k) s student p
              Hvalid Hnd Hstudent Hfind Hfit) as (l1 & l2 & Hl & Hl1 & Hrun).
  eexists. eexists. split; [exact Hrun|]. simpl. split.
  - apply find_first; [assumption|].
    apply find_some in Hfind. apply Hfind.
  - split; [|reflexivity]. simpl. apply add_index_In. now right.
Qed.

Lemma complete_quiz_no_bounds_check_witness :
  exists s' p',
    complete_quiz sample_course_id "alice" (mkCompleteQuizRequest (-1))
                  sample_store
      = (Return "Quiz marked complete", s') /\
    find (progress_by_pair 0%N (ObjectId.of_str sample_course_id)) (progress s')
      = Some p' /\
    In (-1)%Z (completed_quizzes p') /\
    courses s' = courses sample_store.
Proof.
  apply (complete_quiz_no_bounds_check sample_course_id "alice" (-1)
           sample_store alice sample_progress).
  - reflexivity.
  - simpl. constructor; [intros [] | constructor].
  - reflexivity.
  - reflexivity.
  - split; [discriminate | reflexivity].
  - reflexivity.
Defined.

(** The course of the sample run has no quiz question, and index 7 is
    recorded all the same; so is index -1. *)
Example complete_quiz_out_of_range_sample :
  map quizzes (courses sample_store) = [[]] /\
  progress (snd (complete_quiz sample_course_id "alice"
                   (mkCompleteQuizRequest 7) sample_store))
  = [mkProgress 3%N 0%N 2%N [7%Z] false] /\
  progress (run [ReqCompleteQuiz sample_course_id "alice" (mkCompleteQuizRequest 7);
                 ReqCompleteQuiz sample_course_id "alice" (mkCompleteQuizRequest (-1));
                 ReqCompleteQuiz sample_course_id "alice" (mkCompleteQuizRequest 7)]
                sample_store)
  = [mkProgress 3%N 0%N 2%N [7%Z; (-1)%Z] false].
Proof. repeat split. Qed.

(** ** Reachable states *)

(** In every reachable state the [_id]s of the progress collection are
    pairwise different, which is what the theorems on [complete_quiz] and
    [complete_assignment] ask of the store. *)
Lemma reachable_progress_ids_unique reqs :
  NoDup (map p_id (progress (run reqs empty_store))).
Proof.
  destruct (run_preserves reqs empty_store inv_empty) as [_ _ _ _ Hids _].
  apply Hids.
Qed.

(** C5. Every operation preserves the data-model invariants.  In the state
    reached from the empty store by any sequence of requests to the eight
    handlers, usernames are unique, no two Progress records share their
    (student, course) pair, the owner of every course is the id of an account
    with [is_instructor = true], the student of every Progress record is the
    id of an account with [is_instructor = false], and within a collection
    ids are unique, so that an id refers to one account. *)
Theorem reachable_states_keep_invariants (reqs : list Request) :
  usernames_unique (run reqs empty_store) /\
  one_progress_per_pair (run reqs empty_store) /\
  owners_are_instructors (run reqs empty_store) /\
  students_are_not_instructors (run reqs empty_store) /\
  ids_unique (run reqs empty_store).
Proof.
  destruct (run_preserves reqs empty_store inv_empty) as [H1 H2 H3 H4 H5 _].
  auto.
Qed.

(** * Further properties of the handlers *)

(** ** Failures *)

(** X1. The student is looked up before the course id is read: when the
    username does not resolve to a non-instructor account, the four handlers
    that take a username fail with status 404 "Student not found" on any
    [course_id], valid or not, and leave the store as it is. *)
Theorem student_lookup_comes_first cid name s :
  find (by_username_role name false) (users s) = None ->
  enroll_student cid (mkEnrollRequest name) s
    = (Raise (HTTPException 404 "Student not found"), s) /\
  get_progress cid name s
    = (Raise (HTTPException 404 "Student not found"), s) /\
  (forall req, complete_quiz cid name req s
               = (Raise (HTTPException 404 "Student not found"), s)) /\
  complete_assignment cid name s
    = (Raise (HTTPException 404 "Student not found"), s).
Proof.
  intros Hnone. repeat split.
  - rewrite enroll_student_eq. simpl. now rewrite Hnone.
  - now rewrite get_progress_eq, Hnone.
  - intros req. now rewrite complete_quiz_eq, Hnone.
  - now rewrite complete_assignment_eq, Hnone.
Qed.

Lemma student_lookup_comes_first_witness :
  enroll_student "logic-101" (mkEnrollRequest "bob") sample_store
    = (Raise (HTTPException 404 "Student not found"), sample_store).
Proof.
  apply (student_lookup_comes_first "logic-101" "bob" sample_store).
  reflexivity.
Defined.

(** X2. A request that fails writes nothing, with one exception: the
    registration with [is_instructor = None].  In particular a request that
    fails with an [HTTPException] leaves the store as it was. *)
Theorem failed_request_writes_nothing r s e :
  outcome r s = Some e ->
  (is_http_error e = true -> handle r s = s) /\
  (handle r s = s \/
   exists name, r = ReqCreateUser (mkUserCreateRequest name None)).
Proof.
  destruct r as [[name [b|]]|course|cid quiz| |cid req|cid name|cid name req|cid name];
    unfold outcome, handle, failure_of;
    rewrite ?create_user_eq, ?create_course_eq, ?add_quiz_eq, ?list_courses_eq,
      ?enroll_student_eq, ?get_progress_eq, ?complete_quiz_eq,
      ?complete_assignment_eq;
    simpl; case_handler; simpl; intros He; try discriminate;
    try (split; [reflexivity | left; reflexivity]).
  injection He as <-. split; [discriminate|]. right. now exists name.
Qed.

Lemma failed_request_writes_nothing_witness :
  handle (ReqAddQuiz unknown_course_id sample_quiz) sample_store = sample_store.
Proof.
  destruct (failed_request_writes_nothing
              (ReqAddQuiz unknown_course_id sample_quiz) sample_store
              (HTTPException 404 "Course not found")) as [H _];
    [reflexivity | exact (H eq_refl)].
Defined.

(** X3. The status codes.  An [HTTPException] of [create_user] has status
    400, one of [create_course] has status 403, one of the other handlers has
    status 404, and [list_courses] raises nothing at all. *)
Theorem http_status_by_handler r s :
  match r with
  | ReqListCourses => outcome r s = None
  | ReqCreateUser _ =>
      forall c d, outcome r s = Some (HTTPException c d) -> c = 400%Z
  | ReqCreateCourse _ =>
      forall c d, outcome r s = Some (HTTPException c d) -> c = 403%Z
  | _ => forall c d, outcome r s = Some (HTTPException c d) -> c = 404%Z
  end.
Proof.
  destruct r as [user|course|cid quiz| |cid req|cid name|cid name req|cid name];
    unfold outcome, failure_of;
    rewrite ?create_user_eq, ?create_course_eq, ?add_quiz_eq, ?list_courses_eq,
      ?enroll_student_eq, ?get_progress_eq, ?complete_quiz_eq,
      ?complete_assignment_eq;
    simpl; try reflexivity; intros c d; case_handler; simpl; intros He;
    try discriminate; now injection He as <- _.
Qed.

(** ** Reading progress *)

(** X4. [get_progress] only reads: the store is never changed, and a record
    it returns is a document of the progress collection, for the course id
    that was asked for and for a non-instructor account of the username that
    was asked for. *)
Theorem get_progress_reads_only cid name s :
  snd (get_progress cid name s) = s /\
  (forall p,
      fst (get_progress cid name s) = Return p ->
      In p (progress s) /\
      ObjectId.is_valid cid = true /\
      course_id p = ObjectId.of_str cid /\
      exists u, In u (users s) /\ username u = name /\
                is_instructor u = Some false /\ u_id u = student_id p).
Proof.
  rewrite get_progress_eq.
  destruct (find _ (users s)) as [u|] eqn:Hu; simpl.
  2: { split; [reflexivity | discriminate]. }
  destruct (ObjectId.is_valid cid); simpl.
  2: { split; [reflexivity | discriminate]. }
  destruct (find _ (progress s)) as [q|] eqn:Hq; simpl.
  2: { split; [reflexivity | discriminate]. }
  split; [reflexivity|]. intros p Hp. injection Hp as <-.
  apply find_some in Hu as [Hin Hrole].
  apply by_username_role_spec in Hrole as [Hname Hrole].
  apply find_some in Hq as [Hinq Hkey].
  apply progress_by_pair_spec in Hkey. unfold progress_key in Hkey.
  injection Hkey as Hsid Hcid.
  repeat split; auto. exists u. auto.
Qed.

(** X5. Enroll, then read.  Whenever [enroll_student] returns a record,
    [get_progress] for the same course id and username on the store it left
    returns that record. *)
Theorem get_progress_after_enroll cid name s p s' :
  enroll_student cid (mkEnrollRequest name) s = (Return p, s') ->
  get_progress cid name s' = (Return p, s').
Proof.
  rewrite enroll_student_eq, get_progress_eq. simpl.
  destruct (find _ (users s)) as [u|] eqn:Hu; [|discriminate].
  destruct (ObjectId.is_valid cid) eqn:Hvalid; [|discriminate].
  destruct (find _ (progress s)) as [q|] eqn:Hq; simpl; intros Heq;
    injection Heq as <- <-.
  - now rewrite Hu, Hq.
  - simpl. rewrite Hu, (find_app_none _ _ _ Hq). simpl.
    unfold progress_by_pair. simpl. now rewrite !N.eqb_refl.
Qed.

Lemma get_progress_after_enroll_witness :
  get_progress unknown_course_id "alice"
    (snd (enroll_student unknown_course_id (mkEnrollRequest "alice") sample_store))
  = (fst (enroll_student unknown_course_id (mkEnrollRequest "alice") sample_store),
     snd (enroll_student unknown_course_id (mkEnrollRequest "alice") sample_store)).
Proof.
  apply (get_progress_after_enroll unknown_course_id "alice" sample_store).
  reflexivity.
Defined.

(** X6. The completion handlers fail wherever [get_progress] fails, and
    with the same exception.  Where [get_progress] returns a record,
    [complete_assignment] returns its message, and [complete_quiz] returns
    its message when the index is recorded already or fits 8 bytes along with
    the recorded ones, and otherwise raises [OverflowError] and writes
    nothing. *)
Theorem completion_fails_as_get_progress cid name req s :
  (forall e,
      fst (get_progress cid name s) = Raise e ->
      fst (complete_quiz cid name req s) = Raise e) /\
  (forall e,
      fst (get_progress cid name s) = Raise e <->
      fst (complete_assignment cid name s) = Raise e) /\
  (forall p,
      fst (get_progress cid name s) = Return p ->
      fst (complete_assignment cid name s) = Return "Assignment marked complete" /\
      (mem_Z (quiz_index req) (completed_quizzes p) = true \/
       forallb fits_int64 (completed_quizzes p ++ [quiz_index req]) = true ->
       fst (complete_quiz cid name req s) = Return "Quiz marked complete") /\
      (mem_Z (quiz_index req) (completed_quizzes p) = false ->
       forallb fits_int64 (completed_quizzes p ++ [quiz_index req]) = false ->
       complete_quiz cid name req s =
       (Raise (OverflowError "MongoDB can only handle up to 8-byte ints"), s))).
Proof.
  rewrite get_progress_eq, complete_quiz_eq, complete_assignment_eq.
  destruct (find _ (users s)) as [u|]; simpl.
  2: { repeat split; intros; congruence. }
  destruct (ObjectId.is_valid cid); simpl.
  2: { repeat split; intros; congruence. }
  destruct (find _ (progress s)) as [q|]; simpl.
  2: { repeat split; intros; congruence. }
  split; [intros; discriminate|]. split; [split; intros; discriminate|].
  intros p Hp. injection Hp as <-. split; [reflexivity|]. split.
  - intros [Hmem|Hfit].
    + now rewrite Hmem.
    + destruct (mem_Z _ _); [reflexivity|]. now rewrite Hfit.
  - intros Hmem Hfit. now rewrite Hmem, Hfit.
Qed.

(** ** Growth of a collection *)

Section Grows.

Context {A : Type} (R : A -> A -> Prop).
Hypothesis R_refl : forall x, R x x.
Hypothesis R_trans : forall x y z, R x y -> R y z -> R x z.

Lemma Forall2_same (l : list A) : Forall2 R l l.
Proof. induction l; constructor; auto. Qed.

Lemma Forall2_chain (l1 l2 l3 : list A) :
  Forall2 R l1 l2 -> Forall2 R l2 l3 -> Forall2 R l1 l3.
Proof.
  intros H12. revert l3. induction H12 as [|x y l1 l2 Hxy _ IH]; intros l3 H23.
  - inversion H23. constructor.
  - inversion H23 as [|y' z l2' l3' Hyz Hrest]; subst.
    constructor; [eapply R_trans; eassumption | now apply IH].
Qed.

Lemma grows_same (l : list A) : grows R l l.
Proof. exists l, []. rewrite app_nil_r. split; [reflexivity | apply Forall2_same]. Qed.

Lemma grows_snoc (l : list A) (x : A) : grows R l (l ++ [x]).
Proof. exists l, [x]. split; [reflexivity | apply Forall2_same]. Qed.

Lemma grows_replace (l1 l2 : list A) (x x' : A) :
  R x x' -> grows R (l1 ++ x :: l2) (l1 ++ x' :: l2).
Proof.
  intros Hx. exists (l1 ++ x' :: l2), []. rewrite app_nil_r.
  split; [reflexivity|].
  apply Forall2_app; [apply Forall2_same|].
  constructor; [assumption | apply Forall2_same].
Qed.

Lemma grows_update_first (q : A -> bool) (f : A -> A) (l : list A) :
  (forall x, R x (f x)) -> grows R l (update_first q f l).
Proof.
  intros Hf. exists (update_first q f l), []. rewrite app_nil_r.
  split; [reflexivity|].
  induction l as [|a l IH]; simpl; [constructor|].
  destruct (q a); constructor; auto. apply Forall2_same.
Qed.

Lemma grows_chain (l1 l2 l3 : list A) :
  grows R l1 l2 -> grows R l2 l3 -> grows R l1 l3.
Proof.
  intros (old1 & new1 & -> & H1) (old2 & new2 & -> & H2).
  apply Forall2_app_inv_l in H2 as (a & b & Ha & Hb & ->).
  exists a, (b ++ new2). split; [now rewrite app_assoc|].
  eapply Forall2_chain; eassumption.
Qed.

End Grows.

Lemma course_extends_refl c : course_extends c c.
Proof.
  repeat split. exists []. now rewrite app_nil_r.
Qed.

Lemma course_extends_trans c1 c2 c3 :
  course_extends c1 c2 -> course_extends c2 c3 -> course_extends c1 c3.
Proof.
  intros (Hi & Ht & Hd & Ho & qs & Hq) (Hi' & Ht' & Hd' & Ho' & qs' & Hq').
  repeat split; try congruence.
  exists (qs ++ qs'). now rewrite Hq', Hq, app_assoc.
Qed.

Lemma course_extends_push quiz c : course_extends c (push_quizzes quiz c).
Proof. repeat split. now exists [quiz]. Qed.

Lemma progress_extends_refl p : progress_extends p p.
Proof. repeat split; auto. apply incl_refl. Qed.

Lemma progress_extends_trans p1 p2 p3 :
  progress_extends p1 p2 -> progress_extends p2 p3 -> progress_extends p1 p3.
Proof.
  intros (Hi & Hs & Hc & Hq & Ha) (Hi' & Hs' & Hc' & Hq' & Ha').
  repeat split; try congruence; auto.
  eapply incl_tran; eassumption.
Qed.

Lemma update_found_replace (l : list Progress) q f p :
  NoDup (map p_id l) -> find q l = Some p ->
  exists l1 l2, l = l1 ++ p :: l2 /\
                update_first (progress_by_id (p_id p)) f l = l1 ++ f p :: l2.
Proof.
  intros Hnd Hfind.
  destruct (find_split_key p_id _ _ _ Hnd Hfind) as (l1 & l2 & -> & _ & _ & Hids).
  exists l1, l2. split; [reflexivity|].
  apply update_first_at; [|apply N.eqb_refl].
  eapply Forall_impl; [|exact Hids]. intros y Hy. now apply N.eqb_neq.
Qed.

(** ** What a request does to each collection *)

Lemma handle_users r s : exists l, users (handle r s) = users s ++ l.
Proof.
  destruct r as [user|course|cid quiz| |cid req|cid name|cid name req|cid name];
    unfold handle;
    rewrite ?create_user_eq, ?create_course_eq, ?add_quiz_eq, ?list_courses_eq,
      ?enroll_student_eq, ?get_progress_eq, ?complete_quiz_eq,
      ?complete_assignment_eq;
    simpl; case_handler; simpl;
    try (exists []; now rewrite app_nil_r).
  all: eexists; reflexivity.
Qed.

Lemma handle_courses r s :
  grows course_extends (courses s) (courses (handle r s)).
Proof.
  destruct r as [user|course|cid quiz| |cid req|cid name|cid name req|cid name];
    unfold handle;
    rewrite ?create_user_eq, ?create_course_eq, ?add_quiz_eq, ?list_courses_eq,
      ?enroll_student_eq, ?get_progress_eq, ?complete_quiz_eq,
      ?complete_assignment_eq;
    simpl; case_handler; simpl;
    try (apply grows_same; exact course_extends_refl).
  - apply grows_snoc. exact course_extends_refl.
  - apply grows_update_first; [exact course_extends_refl|].
    apply course_extends_push.
Qed.

Lemma handle_progress r s :
  NoDup (map p_id (progress s)) ->
  grows progress_extends (progress s) (progress (handle r s)).
Proof.
  intros Hnd.
  destruct r as [user|course|cid quiz| |cid req|cid name|cid name req|cid name];
    unfold handle;
    rewrite ?create_user_eq, ?create_course_eq, ?add_quiz_eq, ?list_courses_eq,
      ?enroll_student_eq, ?get_progress_eq, ?complete_quiz_eq,
      ?complete_assignment_eq;
    simpl; case_handler; simpl;
    try (apply grows_same; exact progress_extends_refl).
  - apply grows_snoc. exact progress_extends_refl.
  - match goal with
    | H : find (progress_by_pair _ _) _ = Some ?p |- _ =>
        destruct (update_found_replace _ _
                    (set_completed_quizzes
                       (completed_quizzes p ++ [quiz_index req])) _ Hnd H)
          as (l1 & l2 & Hl & ->)
    end.
    rewrite Hl. apply grows_replace; [exact progress_extends_refl|].
    repeat split; auto. simpl. apply incl_appl, incl_refl.
  - match goal with
    | H : find (progress_by_pair _ _) _ = Some ?p |- _ =>
        destruct (update_found_replace _ _ (set_assignments_completed true) _ Hnd H)
          as (l1 & l2 & Hl & ->)
    end.
    rewrite Hl. apply grows_replace; [exact progress_extends_refl|].
    repeat split; auto. apply incl_refl.
Qed.

Lemma run_app reqs1 reqs2 s : run (reqs1 ++ reqs2) s = run reqs2 (run reqs1 s).
Proof. unfold run. apply fold_left_app. Qed.

Lemma run_progress reqs s :
  data_model_invariants s ->
  grows progress_extends (progress s) (progress (run reqs s)).
Proof.
  revert s. induction reqs as [|r reqs IH]; intros s Hinv; simpl.
  - apply grows_same. exact progress_extends_refl.
  - eapply grows_chain; [exact progress_extends_trans | | apply IH].
    + apply handle_progress. destruct Hinv as [_ _ _ _ Hids _]. apply Hids.
    + now apply handle_preserves.
Qed.

Lemma handle_completed_distinct r s :
  completed_distinct s -> completed_distinct (handle r s).
Proof.
  unfold completed_distinct. intros Hd.
  destruct r as [user|course|cid quiz| |cid req|cid name|cid name req|cid name];
    unfold handle;
    rewrite ?create_user_eq, ?create_course_eq, ?add_quiz_eq, ?list_courses_eq,
      ?enroll_student_eq, ?get_progress_eq, ?complete_quiz_eq,
      ?complete_assignment_eq;
    simpl; case_handler; simpl; try assumption.
  - apply Forall_app. split; [assumption|].
    constructor; [constructor | constructor].
  - apply update_first_Forall; [|assumption].
    intros x _. simpl.
    match goal with
    | H : find (progress_by_pair _ _) _ = Some ?p |- _ =>
        apply find_some in H as [Hin _];
        rewrite Forall_forall in Hd; specialize (Hd p Hin)
    end.
    apply NoDup_snoc; [assumption|].
    intros Hk. apply mem_Z_In in Hk. congruence.
  - apply update_first_Forall; [|assumption]. intros x Hx. exact Hx.
Qed.

(** ** Documents are never deleted *)

(** X7. Users are append-only: over any sequence of requests the users
    collection only gains documents at its end, so a username that resolves
    to an account with some role keeps resolving to that same account. *)
Theorem users_append_only reqs s :
  (exists l, users (run reqs s) = users s ++ l) /\
  (forall name role u,
      find (by_username_role name role) (users s) = Some u ->
      find (by_username_role name role) (users (run reqs s)) = Some u).
Proof.
  assert (Happ : exists l, users (run reqs s) = users s ++ l).
  { revert s. induction reqs as [|r reqs IH]; intros s; simpl.
    - exists []. now rewrite app_nil_r.
    - destruct (IH (handle r s)) as (l2 & ->).
      destruct (handle_users r s) as (l1 & ->).
      exists (l1 ++ l2). now rewrite app_assoc. }
  split; [exact Happ|].
  intros name role u Hfind. destruct Happ as (l & ->).
  now apply find_app_some.
Qed.

(** X8. Courses are never deleted and only gain quizzes: if [list_courses]
    returns [l] now and [l'] after any further requests, then [l'] starts
    with the courses of [l] in the same order, each with the same id, title,
    description and owner, and with its old quizzes as a prefix of its
    quizzes. *)
Theorem courses_only_grow reqs s l l' :
  fst (list_courses s) = Return l ->
  fst (list_courses (run reqs s)) = Return l' ->
  grows course_extends l l'.
Proof.
  rewrite !list_courses_eq. simpl. intros Hl Hl'.
  injection Hl as <-. injection Hl' as <-.
  revert s. induction reqs as [|r reqs IH]; intros s; simpl.
  - apply grows_same. exact course_extends_refl.
  - eapply grows_chain; [exact course_extends_trans | apply handle_courses | apply IH].
Qed.

Lemma courses_only_grow_witness :
  grows course_extends
    [mkCourse 2%N "Logic" None 1%N []]
    [mkCourse 2%N "Logic" None 1%N [sample_quiz];
     mkCourse 4%N "Sets" None 1%N []].
Proof.
  apply (courses_only_grow
           [ReqAddQuiz sample_course_id sample_quiz;
            ReqCreateCourse (mkCourseCreateRequest "Sets" None "bob")]
           sample_store); reflexivity.
Defined.

(** X9. Progress is never lost: along any run from the empty store the
    progress collection keeps its records in place, each with the same id,
    student and course, every completed quiz index still recorded, and the
    assignment flag still set once it was set; new records come at the
    end. *)
Theorem progress_only_grows reqs1 reqs2 :
  grows progress_extends
    (progress (run reqs1 empty_store))
    (progress (run (reqs1 ++ reqs2) empty_store)).
Proof.
  rewrite run_app. apply run_progress.
  apply run_preserves. exact inv_empty.
Qed.

(** X10. The list of completed quiz indices has no repetition, in every
    record of every state reached from the empty store. *)
Theorem completed_quizzes_distinct reqs :
  completed_distinct (run reqs empty_store).
Proof.
  assert (H : forall s, completed_distinct s -> completed_distinct (run reqs s)).
  { induction reqs as [|r reqs IH]; intros s Hs; simpl; [assumption|].
    apply IH. now apply handle_completed_distinct. }
  apply H. constructor.
Qed.

(** ** Roles *)

Lemma NoDup_map_eq {A B} (f : A -> B) (l : list A) x y :
  NoDup (map f l) -> In x l -> In y l -> f x = f y -> x = y.
Proof.
  induction l as [|a l IH]; simpl; intros Hnd Hx Hy Heq; [contradiction|].
  inversion Hnd as [|? ? Hnotin Hnd']; subst.
  destruct Hx as [->|Hx], Hy as [->|Hy]; auto.
  - exfalso. apply Hnotin. rewrite Heq. now apply in_map.
  - exfalso. apply Hnotin. rewrite <- Heq. now apply in_map.
Qed.

Lemma find_role_of_unique s u role :
  usernames_unique s -> In u (users s) -> is_instructor u <> Some role ->
  find (by_username_role (username u) role) (users s) = None.
Proof.
  intros Hnd Hin Hrole.
  destruct (find _ (users s)) as [v|] eqn:Hfind; [|reflexivity].
  apply find_some in Hfind as [Hv Hq].
  apply by_username_role_spec in Hq as [Hname Hvrole].
  assert (v = u) by (eapply NoDup_map_eq; eassumption).
  subst v. contradiction.
Qed.

Lemma find_role_after_add name role l i flag :
  find (by_username name) l = None ->
  find (by_username_role name role) (l ++ [mkUserDoc i name flag]) =
  match flag with
  | Some b => if Bool.eqb b role then Some (mkUserDoc i name flag) else None
  | None => None
  end.
Proof.
  intros Hnone.
  assert (Hrole : find (by_username_role name role) l = None).
  { apply find_none_forall. apply find_none_forall in Hnone.
    eapply Forall_impl; [|exact Hnone]. intros u Hu.
    unfold by_username_role. unfold by_username in Hu. now rewrite Hu. }
  rewrite (find_app_none _ _ _ Hrole). simpl.
  unfold by_username_role. simpl. rewrite String.eqb_refl. simpl.
  destruct flag as [b|]; [|reflexivity]. now destruct (Bool.eqb b role).
Qed.

(** X11. With unique usernames a role is exclusive: the username of an
    account that is not an instructor cannot create a course (403), and the
    username of an account that is not a plain student cannot be enrolled
    (404); neither request changes the store. *)
Theorem role_is_exclusive s u :
  usernames_unique s -> In u (users s) ->
  (is_instructor u <> Some true ->
   forall t d,
     create_course (mkCourseCreateRequest t d (username u)) s =
     (Raise (HTTPException 403 "Only instructors can create courses"), s)) /\
  (is_instructor u <> Some false ->
   forall cid,
     enroll_student cid (mkEnrollRequest (username u)) s =
     (Raise (HTTPException 404 "Student not found"), s)).
Proof.
  intros Hnd Hin. split; intros Hrole.
  - intros t d. rewrite create_course_eq. simpl.
    now rewrite (find_role_of_unique s u true Hnd Hin Hrole).
  - intros cid. rewrite enroll_student_eq. simpl.
    now rewrite (find_role_of_unique s u false Hnd Hin Hrole).
Qed.

Lemma role_is_exclusive_witness :
  enroll_student sample_course_id (mkEnrollRequest "bob") sample_store =
  (Raise (HTTPException 404 "Student not found"), sample_store).
Proof.
  destruct (role_is_exclusive sample_store (mkUserDoc 1%N "bob" (Some true)))
    as [_ H].
  - repeat constructor; simpl; intuition discriminate.
  - simpl. auto.
  - apply H. discriminate.
Defined.

(** X12. A registration with [is_instructor = None] takes the username
    although it failed: afterwards the username cannot be registered again
    with any flag (400), cannot create a course (403) and cannot be enrolled
    (404). *)
Theorem null_flag_registration_blocks_username name s :
  find (by_username name) (users s) = None ->
  let s1 := snd (create_user (mkUserCreateRequest name None) s) in
  (forall flag,
      create_user (mkUserCreateRequest name flag) s1 =
      (Raise (HTTPException 400 "Username already exists"), s1)) /\
  (forall t d,
      create_course (mkCourseCreateRequest t d name) s1 =
      (Raise (HTTPException 403 "Only instructors can create courses"), s1)) /\
  (forall cid,
      enroll_student cid (mkEnrollRequest name) s1 =
      (Raise (HTTPException 404 "Student not found"), s1)).
Proof.
  intros Hnone. rewrite create_user_eq. simpl. rewrite Hnone. simpl.
  repeat split.
  - intros flag. rewrite create_user_eq. simpl.
    rewrite (find_app_none _ _ _ Hnone). simpl.
    unfold by_username. simpl. now rewrite String.eqb_refl.
  - intros t d. rewrite create_course_eq. simpl.
    now rewrite (find_role_after_add name true _ _ None Hnone).
  - intros cid. rewrite enroll_student_eq. simpl.
    now rewrite (find_role_after_add name false _ _ None Hnone).
Qed.

Lemma null_flag_registration_blocks_username_witness :
  create_user (mkUserCreateRequest "carol" (Some false))
    (snd (create_user (mkUserCreateRequest "carol" None) sample_store))
  = (Raise (HTTPException 400 "Username already exists"),
     snd (create_user (mkUserCreateRequest "carol" None) sample_store)).
Proof.
  destruct (null_flag_registration_blocks_username "carol" sample_store)
    as [H _]; [reflexivity | exact (H (Some false))].
Defined.

(** X13. A user that was registered acts in the registered role at once.
    When [create_user] returns a user, an instructor can create a course,
    which is then owned by the id that was returned, and cannot be enrolled;
    a student can be enrolled in any valid course id, the record carrying the
    id that was returned, and cannot create a course. *)
Theorem registered_user_acts_in_role req s usr s1 :
  create_user req s = (Return usr, s1) ->
  User_username usr = ucr_username req /\
  ucr_is_instructor req = Some (User_is_instructor usr) /\
  (User_is_instructor usr = true ->
   (forall t d, exists c,
       fst (create_course (mkCourseCreateRequest t d (User_username usr)) s1)
         = Return c /\
       instructor_id c = User_id usr /\ title c = t /\ description c = d) /\
   (forall cid,
       enroll_student cid (mkEnrollRequest (User_username usr)) s1 =
       (Raise (HTTPException 404 "Student not found"), s1))) /\
  (User_is_instructor usr = false ->
   (forall t d,
       create_course (mkCourseCreateRequest t d (User_username usr)) s1 =
       (Raise (HTTPException 403 "Only instructors can create courses"), s1)) /\
   (forall cid, ObjectId.is_valid cid = true -> exists p,
       fst (enroll_student cid (mkEnrollRequest (User_username usr)) s1)
         = Return p /\
       student_id p = User_id usr /\ course_id p = ObjectId.of_str cid)).
Proof.
  rewrite create_user_eq. destruct req as [name flag]. simpl.
  destruct (find _ (users s)) eqn:Hnone; [discriminate|].
  destruct flag as [b|]; [|discriminate].
  intros Heq. injection Heq as <- <-. simpl.
  split; [reflexivity|]. split; [reflexivity|].
  split; intros ->; split.
  - intros t d. rewrite create_course_eq. simpl.
    rewrite (find_role_after_add name true _ _ (Some true) Hnone). simpl.
    eexists. repeat split.
  - intros cid. rewrite enroll_student_eq. simpl.
    now rewrite (find_role_after_add name false _ _ (Some true) Hnone).
  - intros t d. rewrite create_course_eq. simpl.
    now rewrite (find_role_after_add name true _ _ (Some false) Hnone).
  - intros cid Hvalid. rewrite enroll_student_eq. simpl.
    rewrite (find_role_after_add name false _ _ (Some false) Hnone). simpl.
    rewrite Hvalid.
    destruct (find _ (progress s)) as [p|] eqn:Hp; simpl.
    + exists p. split; [reflexivity|].
      apply find_some in Hp as [_ Hkey].
      apply progress_by_pair_spec in Hkey. unfold progress_key in Hkey.
      now injection Hkey.
    + eexists. repeat split.
Qed.

Lemma registered_user_acts_in_role_witness :
  exists c,
    fst (create_course (mkCourseCreateRequest "Sets" None "dana")
           (snd (create_user (mkUserCreateRequest "dana" (Some true))
                   sample_store)))
      = Return c /\
    instructor_id c = 4%N /\ title c = "Sets" /\ description c = None.
Proof.
  destruct (registered_user_acts_in_role
              (mkUserCreateRequest "dana" (Some true)) sample_store
              (mkUser 4%N "dana" true)
              (snd (create_user (mkUserCreateRequest "dana" (Some true))
                      sample_store)))
    as (_ & _ & H & _); [reflexivity|].
  destruct (H eq_refl) as [Hc _]. exact (Hc "Sets" None).
Defined.

(** ** Completion handlers on a located record *)

Section Located.

Variables (cid name : string) (s : Store) (student : UserDoc).
Variables (l1 l2 : list Progress) (p : Progress).
Hypothesis Hvalid : ObjectId.is_valid cid = true.
Hypothesis Hstudent :
  find (by_username_role name false) (users s) = Some student.
Hypothesis Hkey :
  progress_by_pair (u_id student) (ObjectId.of_str cid) p = true.
Hypothesis Hbefore :
  Forall (fun y => progress_by_pair (u_id student) (ObjectId.of_str cid) y
                   = false) l1.
Hypothesis Hids : Forall (fun y => p_id y <> p_id p) l1.

Lemma complete_quiz_at req :
  snd (complete_quiz cid name req (with_progress s (l1 ++ p :: l2))) =
  with_progress s
    (l1 ++ set_completed_quizzes
             (if mem_Z (quiz_index req) (completed_quizzes p)
              then completed_quizzes p
              else if forallb fits_int64 (completed_quizzes p ++ [quiz_index req])
                   then completed_quizzes p ++ [quiz_index req]
                   else completed_quizzes p) p :: l2).
Proof.
  rewrite complete_quiz_eq. simpl. rewrite Hstudent, Hvalid.
  rewrite find_first by assumption.
  destruct (mem_Z _ _); simpl.
  - now rewrite set_completed_quizzes_same.
  - destruct (forallb _ _); simpl.
    + rewrite update_first_at; [reflexivity | | apply N.eqb_refl].
      eapply Forall_impl; [|exact Hids]. intros y Hy. now apply N.eqb_neq.
    + now rewrite set_completed_quizzes_same.
Qed.

Lemma complete_assignment_at :
  complete_assignment cid name (with_progress s (l1 ++ p :: l2)) =
  (Return "Assignment marked complete",
   with_progress s (l1 ++ set_assignments_completed true p :: l2)).
Proof.
  rewrite complete_assignment_eq. simpl. rewrite Hstudent, Hvalid.
  rewrite find_first by assumption.
  rewrite update_first_at; [reflexivity | | apply N.eqb_refl].
  eapply Forall_impl; [|exact Hids]. intros y Hy. now apply N.eqb_neq.
Qed.

End Located.

Lemma find_replace_miss {A} (q : A -> bool) l1 l2 x x' :
  q x = false -> q x' = false ->
  find q (l1 ++ x' :: l2) = find q (l1 ++ x :: l2).
Proof.
  intros Hx Hx'. induction l1 as [|a l1 IH]; simpl.
  - now rewrite Hx, Hx'.
  - now rewrite IH.
Qed.

Lemma find_snoc_miss {A} (q : A -> bool) l x :
  q x = false -> find q (l ++ [x]) = find q l.
Proof.
  intros Hx. induction l as [|a l IH]; simpl.
  - now rewrite Hx.
  - now rewrite IH.
Qed.

Lemma progress_by_pair_other sid cid sid' cid' p :
  (sid', cid') <> (sid, cid) ->
  progress_key p = (sid, cid) ->
  progress_by_pair sid' cid' p = false.
Proof.
  intros Hneq Hkey.
  destruct (progress_by_pair sid' cid' p) eqn:Hq; [|reflexivity].
  apply progress_by_pair_spec in Hq. congruence.
Qed.

(** ** How the completion handlers compose *)

(** X14. Marking a quiz and marking the assignment commute: for the same
    course id and username the two handlers leave the same store in either
    order. *)
Theorem completions_commute cid name req s :
  NoDup (map p_id (progress s)) ->
  snd (complete_assignment cid name (snd (complete_quiz cid name req s))) =
  snd (complete_quiz cid name req (snd (complete_assignment cid name s))).
Proof.
  intros Hnd.
  destruct (find (by_username_role name false) (users s)) as [u|] eqn:Hu.
  2: { rewrite (complete_quiz_eq cid name req s),
         (complete_assignment_eq cid name s), Hu. simpl.
       now rewrite complete_quiz_eq, complete_assignment_eq, Hu. }
  destruct (ObjectId.is_valid cid) eqn:Hvalid.
  2: { rewrite (complete_quiz_eq cid name req s),
         (complete_assignment_eq cid name s), Hu, Hvalid. simpl.
       now rewrite complete_quiz_eq, complete_assignment_eq, Hu, Hvalid. }
  destruct (find (progress_by_pair (u_id u) (ObjectId.of_str cid)) (progress s))
    as [p|] eqn:Hp.
  2: { rewrite (complete_quiz_eq cid name req s),
         (complete_assignment_eq cid name s), Hu, Hvalid, Hp. simpl.
       now rewrite complete_quiz_eq, complete_assignment_eq, Hu, Hvalid, Hp. }
  destruct (find_split_key p_id _ _ _ Hnd Hp) as (l1 & l2 & Hl & Hkey & Hl1 & Hids).
  rewrite <- (with_progress_same s), Hl.
  rewrite (complete_quiz_at cid name s u l1 l2 p) by assumption.
  rewrite (complete_assignment_at cid name s u l1 l2 p) by assumption.
  simpl.
  rewrite (complete_assignment_at cid name s u l1 l2) by assumption.
  rewrite (complete_quiz_at cid name s u l1 l2) by assumption.
  reflexivity.
Qed.

Lemma completions_commute_witness :
  snd (complete_assignment sample_course_id "alice"
         (snd (complete_quiz sample_course_id "alice" (mkCompleteQuizRequest 0)
                 sample_store))) =
  snd (complete_quiz sample_course_id "alice" (mkCompleteQuizRequest 0)
         (snd (complete_assignment sample_course_id "alice" sample_store))).
Proof.
  apply (completions_commute sample_course_id "alice" (mkCompleteQuizRequest 0)
           sample_store).
  simpl. constructor; [intros [] | constructor].
Defined.

(** X15. One enrollment at a time: enrolling, marking a quiz and marking
    the assignment for one (student, course) pair leave the record that is
    found for any other pair as it was. *)
Theorem other_enrollments_untouched cid name req s student sid' cid' :
  NoDup (map p_id (progress s)) ->
  find (by_username_role name false) (users s) = Some student ->
  (sid', cid') <> (u_id student, ObjectId.of_str cid) ->
  find (progress_by_pair sid' cid')
       (progress (snd (enroll_student cid (mkEnrollRequest name) s)))
    = find (progress_by_pair sid' cid') (progress s) /\
  find (progress_by_pair sid' cid')
       (progress (snd (complete_quiz cid name req s)))
    = find (progress_by_pair sid' cid') (progress s) /\
  find (progress_by_pair sid' cid')
       (progress (snd (complete_assignment cid name s)))
    = find (progress_by_pair sid' cid') (progress s).
Proof.
  intros Hnd Hu Hneq.
  rewrite enroll_student_eq, complete_quiz_eq, complete_assignment_eq.
  simpl. rewrite Hu.
  destruct (ObjectId.is_valid cid) eqn:Hvalid; simpl; [|auto].
  destruct (find (progress_by_pair (u_id student) (ObjectId.of_str cid))
                 (progress s)) as [p|] eqn:Hp; simpl.
  - destruct (find_split_key p_id _ _ _ Hnd Hp)
      as (l1 & l2 & Hl & Hkey & Hl1 & Hids).
    apply progress_by_pair_spec in Hkey.
    assert (Hby : Forall (fun y => progress_by_id (p_id p) y = false) l1).
    { eapply Forall_impl; [|exact Hids]. intros y Hy. now apply N.eqb_neq. }
    split; [reflexivity|]. split.
    + destruct (mem_Z _ _); [reflexivity|].
      destruct (forallb _ _); [|reflexivity]. simpl.
      rewrite Hl, update_first_at; [|assumption|apply N.eqb_refl].
      apply find_replace_miss;
        eapply progress_by_pair_other; try eassumption; reflexivity.
    + rewrite Hl, update_first_at; [|assumption|apply N.eqb_refl].
      apply find_replace_miss;
        eapply progress_by_pair_other; try eassumption; reflexivity.
  - split; [|auto]. apply find_snoc_miss.
    eapply progress_by_pair_other; [eassumption | reflexivity].
Qed.

Lemma other_enrollments_untouched_witness :
  find (progress_by_pair 0%N 2%N)
       (progress (snd (enroll_student unknown_course_id
                         (mkEnrollRequest "alice") sample_store)))
  = find (progress_by_pair 0%N 2%N) (progress sample_store).
Proof.
  apply (other_enrollments_untouched unknown_course_id "alice"
           (mkCompleteQuizRequest 0) sample_store alice 0%N 2%N).
  - simpl. constructor; [intros [] | constructor].
  - reflexivity.
  - discriminate.
Defined.

(** ** Roles in reachable states *)

(** X16. Roles separate the data.  In every state reached from the empty
    store, an account that is not an instructor owns no course, and an
    account that is not a plain student has no Progress record. *)
Theorem roles_separate_data reqs u :
  In u (users (run reqs empty_store)) ->
  (is_instructor u <> Some true ->
   forall c, In c (courses (run reqs empty_store)) -> instructor_id c <> u_id u) /\
  (is_instructor u <> Some false ->
   forall p, In p (progress (run reqs empty_store)) -> student_id p <> u_id u).
Proof.
  intros Hin.
  destruct (run_preserves reqs empty_store inv_empty)
    as [_ _ Hown Hstud (Huid & _ & _) _].
  split; intros Hrole.
  - intros c Hc Heq. unfold owners_are_instructors in Hown.
    rewrite Forall_forall in Hown.
    destruct (Hown c Hc) as (v & Hv & Hid & Hflag).
    assert (v = u) by (eapply NoDup_map_eq; [exact Huid| | |]; congruence).
    subst v. contradiction.
  - intros p Hp Heq. unfold students_are_not_instructors in Hstud.
    rewrite Forall_forall in Hstud.
    destruct (Hstud p Hp) as (v & Hv & Hid & Hflag).
    assert (v = u) by (eapply NoDup_map_eq; [exact Huid| | |]; congruence).
    subst v. contradiction.
Qed.

Lemma roles_separate_data_witness :
  Forall (fun p => student_id p <> 1%N) (progress sample_store).
Proof.
  apply Forall_forall.
  destruct (roles_separate_data sample_requests (mkUserDoc 1%N "bob" (Some true)))
    as [_ H].
  - simpl. auto.
  - apply H. discriminate.
Defined.

(** ** Which collection a request may write *)

(** X17. Each handler writes to one collection at most.  [create_user]
    leaves courses and progress alone; [create_course] and [add_quiz] leave
    users and progress alone, and [add_quiz] keeps the ids of the courses;
    [enroll_student] and the completion handlers leave users and courses
    alone, and the completion handlers keep the (student, course) pairs and
    ids of the progress records; [list_courses] and [get_progress] write
    nothing. *)
Theorem handlers_write_one_collection r s :
  match r with
  | ReqCreateUser _ =>
      courses (handle r s) = courses s /\ progress (handle r s) = progress s
  | ReqCreateCourse _ =>
      users (handle r s) = users s /\ progress (handle r s) = progress s
  | ReqAddQuiz _ _ =>
      users (handle r s) = users s /\ progress (handle r s) = progress s /\
      map c_id (courses (handle r s)) = map c_id (courses s)
  | ReqListCourses | ReqGetProgress _ _ => handle r s = s
  | ReqEnrollStudent _ _ =>
      users (handle r s) = users s /\ courses (handle r s) = courses s
  | ReqCompleteQuiz _ _ _ | ReqCompleteAssignment _ _ =>
      users (handle r s) = users s /\ courses (handle r s) = courses s /\
      map progress_key (progress (handle r s)) = map progress_key (progress s) /\
      map p_id (progress (handle r s)) = map p_id (progress s)
  end.
Proof.
  destruct r as [user|course|cid quiz| |cid req|cid name|cid name req|cid name];
    unfold handle;
    rewrite ?create_user_eq, ?create_course_eq, ?add_quiz_eq, ?list_courses_eq,
      ?enroll_student_eq, ?get_progress_eq, ?complete_quiz_eq,
      ?complete_assignment_eq;
    simpl; case_handler; simpl; repeat split;
    now rewrite ?update_first_map.
Qed.
